(** * tempoiq-python: the query builder and the response classifier

    A shallow embedding of [tempoiq/protocol/query/builder.py] and of the
    response classes exercised by [tests/test_response.py], with the
    properties of the written specification stated and settled against it.

    Layout:
    - [Py]        the few Python notions the code relies on (exceptions,
                  warnings, [None], truthiness, [str.lower]);
    - [Selection] the selector classes the builder inspects;
    - [Functions] pipeline functions and API operations;
    - [Builder]   [QueryBuilder] itself, in a state-and-exception monad that
                  records warnings and the calls made to the collaborators;
    - [Response]  [Response] and [WriteResponse];
    - the theorems. *)

From stdpp Require Import base strings list gmap.
From Stdlib Require Import ZArith Lia.

Open Scope string_scope.

(* ================================================================= *)
(** ** Python notions *)

Module Py.

(** The exceptions that the modelled code can raise.  [ValueError] is the
    validation-error class of the specification, [TypeError] its
    argument-type-error class. *)
Inductive exn : Type :=
| ValueError (msg : string)
| TypeError (msg : string)
| KeyError (key : string)
| AttributeError (attr : string)
| IndexError.

Definition is_ValueError (e : exn) : bool :=
  match e with ValueError _ => true | _ => false end.

Definition is_TypeError (e : exn) : bool :=
  match e with TypeError _ => true | _ => false end.

(** Warnings issued through [warnings.warn], by category. *)
Inductive warning : Type :=
| FutureWarning (msg : string)
| TempoIQDeprecationWarning (msg : string).

(** The objects other than [None] that a caller may pass as [start], [end]
    or [timestamp]: a [datetime] (what the docstring of [read] asks for),
    represented by its offset from the epoch, but also, the keywords being
    untyped, a number, a string or a boolean.  A Python value that may be
    [None] is an [option PyValue]. *)
Inductive PyValue : Type :=
| py_datetime (t : Z)
| py_int (n : Z)
| py_str (s : string)
| py_bool (b : bool).

Definition is_None {A} (v : option A) : bool :=
  match v with None => true | Some _ => false end.

(** Truth value, as [if v] and [v or w] test it: [None], zero, the empty
    string and [False] are false; [datetime] defines neither [__nonzero__]
    nor [__len__], so every instance is true. *)
Definition truthy (v : option PyValue) : bool :=
  match v with
  | None => false
  | Some (py_datetime _) => true
  | Some (py_int n) => negb (n =? 0)%Z
  | Some (py_str s) => negb (s =? "")
  | Some (py_bool b) => b
  end.

(** Keyword arguments collected by [**kwargs]: a dict from keyword to the
    value passed, which may itself be [None]. *)
Definition kwargs_get (kwargs : gmap string (option PyValue)) (k : string)
  : option PyValue :=
  match kwargs !! k with
  | Some v => v
  | None => None
  end.

Definition kwargs_getitem (kwargs : gmap string (option PyValue)) (k : string)
  : exn + option PyValue :=
  match kwargs !! k with
  | Some v => inr v
  | None => inl (KeyError k)
  end.

(** [str.lower] on ASCII text. *)
Definition lower_ascii (c : Ascii.ascii) : Ascii.ascii :=
  let n := Ascii.nat_of_ascii c in
  if (65 <=? n)%nat && (n <=? 90)%nat then Ascii.ascii_of_nat (n + 32) else c.

Fixpoint lower (s : string) : string :=
  match s with
  | EmptyString => EmptyString
  | String c rest => String (lower_ascii c) (lower rest)
  end.

(** The classes that [isinstance] is asked about in the builder. *)
Inductive pyclass : Type := cls_str | cls_Rule | cls_Device | cls_Sensor.

Definition pyclass_eqb (a b : pyclass) : bool :=
  match a, b with
  | cls_str, cls_str | cls_Rule, cls_Rule
  | cls_Device, cls_Device | cls_Sensor, cls_Sensor => true
  | _, _ => false
  end.

(** [isinstance(x, C)] for [x] of class [c]; none of the four classes
    derives from another. *)
Definition isinstance (c C : pyclass) : bool := pyclass_eqb c C.

(** The class of a [str] value. *)
Definition class_of_str (s : string) : pyclass := cls_str.

Definition dquote : string := String (Ascii.ascii_of_nat 34) EmptyString.

End Py.

Import Py.

(* ================================================================= *)
(** ** Selectors *)

Module Selection.

(** Modelled from the spec: the [selection] module ([Selection],
    [ScalarSelector], [OrClause], [AndClause], [Compound], [DictSelectable])
    is not among the sources.  A selection expression is a scalar selector,
    an AND- or OR-combination (both [Compound], carrying [selectors]), or a
    dictionary-based selector; every selector exposes [selection_type], and
    only a scalar selector exposes [value]. *)
#[warnings="-register-all"]
Inductive selector : Type :=
| ScalarSelector (selection_type key value : string)
| AndClause (selectors : list selector)
| OrClause (selectors : list selector)
| DictSelectable (selection_type : string) (attrs : list (string * string)).

(** Modelled from the spec: a [Selection] holds the root expression of one
    category, [None] until a selector is added (the builder tests
    [selection.selection is None]). *)
Record Selection : Type := { selection : option selector }.

Definition empty_Selection : Selection := {| selection := None |}.

(** [hasattr(x, 'selectors')] together with the attribute's value. *)
Definition selectors_of (x : option selector) : option (list selector) :=
  match x with
  | Some (AndClause ss) | Some (OrClause ss) => Some ss
  | _ => None
  end.

(** [x.value]: present on scalar selectors only. *)
Definition value_of (x : option selector) : exn + string :=
  match x with
  | Some (ScalarSelector _ _ v) => inr v
  | _ => inl (AttributeError "value")
  end.

(** [issubclass(x.__class__, (Compound, DictSelectable))]. *)
Definition is_Compound_or_DictSelectable (x : option selector) : bool :=
  match x with
  | Some (AndClause _) | Some (OrClause _) | Some (DictSelectable _ _) => true
  | _ => false
  end.

Definition is_scalar (s : selector) : bool :=
  match s with ScalarSelector _ _ _ => true | _ => false end.

(** Number of scalar selectors in a list of selectors. *)
Definition count_scalar (ss : list selector) : nat :=
  length (List.filter is_scalar ss).

End Selection.

Import Selection.

Definition ONEKEYMSG : string :=
  "monitoring rules may only be read out by one key at a time".

(** [extract_key_for_monitoring(selection)], builder.py lines 19-26. *)
Definition extract_key_for_monitoring (sel : Selection) : exn + string :=
  match selectors_of (selection sel) with
  | Some selectors =>
      if (1 <? length selectors)%nat then inl (ValueError ONEKEYMSG)
      else match selectors with
           | s :: _ => value_of (Some s)
           | [] => inl IndexError
           end
  | None => value_of (selection sel)
  end.

(* ================================================================= *)
(** ** Pipeline functions and API operations *)

Module Functions.

(** Modelled from the spec: the [functions] module is not among the sources.
    A pipeline step is a tagged variant whose [args] list is, in order,
    [Aggregation(function)], [Rollup(function, period, start)],
    [MultiRollup(functions, period, start)], [Find(function, period, start)],
    [Interpolation(function, period, start, end)], [ConvertTZ(timezone)];
    the optional trailing bounds default to [None]. *)
Inductive PipelineFunction : Type :=
| Aggregation (function : string)
| Rollup (function period : string) (start : option PyValue)
| MultiRollup (functions : list string) (period : string)
    (start : option PyValue)
| Find (function period : string) (start : option PyValue)
| Interpolation (function period : string) (start end_ : option PyValue)
| ConvertTZ (tz : string).

(** [isinstance(function, (Rollup, MultiRollup, Find))]. *)
Definition is_Rollup_MultiRollup_Find (function : PipelineFunction) : bool :=
  match function with
  | Rollup _ _ _ | MultiRollup _ _ _ | Find _ _ _ => true
  | _ => false
  end.

Definition is_Interpolation (function : PipelineFunction) : bool :=
  match function with Interpolation _ _ _ _ => true | _ => false end.

(** [function.args[-1]] of a rollup, multi-rollup or find step: its start. *)
Definition trailing_start (function : PipelineFunction) : option PyValue :=
  match function with
  | Rollup _ _ s | MultiRollup _ _ s | Find _ _ s => s
  | _ => None
  end.

(** [function.args[-1] = v] on a rollup, multi-rollup or find step. *)
Definition set_trailing_start (function : PipelineFunction)
    (v : option PyValue) : PipelineFunction :=
  match function with
  | Rollup f p _ => Rollup f p v
  | MultiRollup fs p _ => MultiRollup fs p v
  | Find f p _ => Find f p v
  | other => other
  end.

(** Modelled from the spec: [APIOperation(name, args)], with [args] the dict
    built at the call site: [read] has [start] and [stop]; [find] has
    [quantifier]; [single] has [include_selection], [function] and, only when
    it is not [None], [timestamp]; [delete] has [start], [stop], [device_key]
    and [sensor_key]. *)
Inductive APIOperation : Type :=
| op_read (start stop : option PyValue)
| op_find (quantifier : string)
| op_single (include_selection : bool) (function : string)
    (timestamp : option PyValue)
| op_delete (start stop : option PyValue) (device_key sensor_key : string).

End Functions.

Import Functions.

(* ================================================================= *)
(** ** The query builder *)

Module Builder.

Definition PIPEMSG : string :=
  "Pipeline functions passed to monitor call currently have no effect".
Definition DEVICEMSG : string :=
  "Pipeline functions passed to device reads have no effect".
Definition ROLLUPMSG : string :=
  "Rollup, find, and multi-rollup must have a start and end passed to them".
Definition DELETEMSG : string :=
  "Deleting data from sensors requires a start and end time".
Definition DELETEKEYMSG : string :=
  "Deleting data from a sensor requires a selection specifying one device key and one sensor key only".
Definition DELETEDEVICEMSG : string :=
  "Start and end are invalid arguments for deleting devices.  Are you sure you didn't mean session.query(Sensor).delete() instead?".
Definition LATESTMSG : string :=
  "The latest() method has been deprecated. Please use single("
  +:+ dquote +:+ "latest" +:+ dquote +:+ ") instead.".

(** [self.selection]: a dict created with the keys ['devices'], ['sensors']
    and ['rules'], none of which is ever removed. *)
Record SelectionDict : Type := {
  devices : Selection;
  sensors : Selection;
  rules : Selection
}.

(** The attributes of a [QueryBuilder] other than [client], whose use is
    recorded in the [world] below. *)
Record QueryBuilder : Type := {
  object_type : string;
  selection : SelectionDict;
  pipeline : list PipelineFunction;
  operation : option APIOperation
}.

(** [QueryBuilder.__init__(client, object_type)], given
    [object_type.__name__]. *)
Definition __init__ (object_type__name__ : string) : QueryBuilder :=
  {| object_type := lower object_type__name__ +:+ "s";
     selection := {| devices := empty_Selection;
                     sensors := empty_Selection;
                     rules := empty_Selection |};
     pipeline := [];
     operation := None |}.

Definition with_pipeline (q : QueryBuilder) (p : list PipelineFunction)
  : QueryBuilder :=
  {| object_type := object_type q; selection := selection q;
     pipeline := p; operation := operation q |}.

Definition with_operation (q : QueryBuilder) (o : APIOperation)
  : QueryBuilder :=
  {| object_type := object_type q; selection := selection q;
     pipeline := pipeline q; operation := Some o |}.

(** A monitoring rule as the builder sees it: an opaque handle with a
    [selection] attribute that [monitor] assigns. *)
Record Rule : Type := {
  rule_handle : string;
  rule_selection : option SelectionDict
}.

Inductive monitoring_method : Type :=
| get_rule | get_annotations | get_changelog | get_logs | get_usage
| delete_rule.

(** One call made to a collaborator: the transport client, or its
    [monitoring_client].  A call that receives the builder itself is recorded
    with the builder's attributes at the moment of the call. *)
Inductive call : Type :=
| client_read (query : QueryBuilder)
| client_search_devices (query : QueryBuilder)
| client_single (query : QueryBuilder)
| client_delete_device (query : QueryBuilder)
| client_delete_from_sensors (device_key sensor_key : string)
    (start end_ : option PyValue)
| client_monitor (rule : Rule)
| monitoring_client (method : monitoring_method) (key : string).

(** What a method hands back: [None], or the value the collaborator returned
    for a call. *)
Inductive retval : Type :=
| PyNone
| Returned (c : call).

(** The builder together with what it has done to the outside: the warnings
    issued and the collaborator calls made, oldest first. *)
Record world : Type := {
  self : QueryBuilder;
  warned : list warning;
  calls : list call
}.

(** Computations that read and update the [world] and may raise. *)
Definition M (A : Type) : Type := world -> (exn + A) * world.

#[global] Instance M_ret : MRet M := fun A a w => (inr a, w).

#[global] Instance M_bind : MBind M := fun A B k m w =>
  match m w with
  | (inl e, w') => (inl e, w')
  | (inr a, w') => k a w'
  end.

Definition raise {A} (e : exn) : M A := fun w => (inl e, w).

Definition lift {A} (r : exn + A) : M A := fun w => (r, w).

Definition get_self : M QueryBuilder := fun w => (inr (self w), w).

Definition put_self (q : QueryBuilder) : M unit := fun w =>
  (inr tt, {| self := q; warned := warned w; calls := calls w |}).

Definition warn (x : warning) : M unit := fun w =>
  (inr tt, {| self := self w; warned := warned w ++ [x]; calls := calls w |}).

(** Hand [c] to the collaborator and return what it returns. *)
Definition delegate (c : call) : M retval := fun w =>
  (inr (Returned c),
   {| self := self w; warned := warned w; calls := calls w ++ [c] |}).

Definition set_operation (o : APIOperation) : M unit :=
  q ← get_self; put_self (with_operation q o).

Definition set_pipeline (p : list PipelineFunction) : M unit :=
  q ← get_self; put_self (with_pipeline q p).

(** One iteration of the loop of [_normalize_pipeline_functions]. *)
Definition normalize_function (start end_ : option PyValue)
    (function : PipelineFunction) : exn + PipelineFunction :=
  if is_Rollup_MultiRollup_Find function then
    if is_None start || is_None end_ then inl (ValueError ROLLUPMSG)
    else if is_None (trailing_start function)
         then inr (set_trailing_start function start)
         else inr function
  else
    match function with
    | Interpolation f p s e =>
        let s := if is_None s then start else s in
        let e := if is_None e then end_ else e in
        inr (Interpolation f p s e)
    | other => inr other
    end.

(** The loop over [self.pipeline]: each step is updated in place, so the
    steps visited before an exception keep their new arguments. *)
Fixpoint normalize_loop (start end_ : option PyValue)
    (todo : list PipelineFunction) : option exn * list PipelineFunction :=
  match todo with
  | [] => (None, [])
  | function :: rest =>
      match normalize_function start end_ function with
      | inl e => (Some e, function :: rest)
      | inr function' =>
          let '(e, rest') := normalize_loop start end_ rest in
          (e, function' :: rest')
      end
  end.

(** [_normalize_pipeline_functions(self, start, end)], lines 51-62. *)
Definition _normalize_pipeline_functions (start end_ : option PyValue)
  : M unit :=
  q ← get_self;
  let '(e, p) := normalize_loop start end_ (pipeline q) in
  set_pipeline p;;
  match e with
  | Some e => raise e
  | None => mret tt
  end.

(** [_validate_datapoint_delete(self)], lines 64-76. *)
Definition _validate_datapoint_delete : M (string * string) :=
  q ← get_self;
  let d := Selection.selection (devices (selection q)) in
  let s := Selection.selection (sensors (selection q)) in
  if is_Compound_or_DictSelectable d then raise (ValueError DELETEKEYMSG)
  else if is_Compound_or_DictSelectable s then raise (ValueError DELETEKEYMSG)
  else if is_None d then raise (ValueError DELETEKEYMSG)
  else if is_None s then raise (ValueError DELETEKEYMSG)
  else
    device_key ← lift (value_of d);
    sensor_key ← lift (value_of s);
    mret (device_key, sensor_key).

(** [_handle_monitor_read(self, **kwargs)], lines 45-49, with the method
    named by [kwargs['__method$$']] given directly. *)
Definition _handle_monitor_read (method : monitoring_method) : M retval :=
  q ← get_self;
  key ← lift (extract_key_for_monitoring (rules (selection q)));
  delegate (monitoring_client method key).

(** *** Pipeline-appending methods (each returns [self]) *)

(** [aggregate(self, function)], lines 78-82. *)
Definition aggregate (function : string) (q : QueryBuilder) : QueryBuilder :=
  with_pipeline q (pipeline q ++ [Aggregation function]).

(** [convert_timezone(self, tz)], lines 96-101. *)
Definition convert_timezone (tz : string) (q : QueryBuilder) : QueryBuilder :=
  with_pipeline q (pipeline q ++ [ConvertTZ tz]).

(** [find(self, function, period, start=None)], lines 146-148. *)
Definition find (function period : string) (start : option PyValue)
    (q : QueryBuilder) : QueryBuilder :=
  with_pipeline q (pipeline q ++ [Find function period start]).

(** [interpolate(self, function, period, start=None, end=None)], lines
    150-156: the step is built as [Interpolation(function, period)], so its
    own [start] and [end] take their default, [None]. *)
Definition interpolate (function period : string)
    (start end_ : option PyValue) (q : QueryBuilder) : QueryBuilder :=
  with_pipeline q (pipeline q ++ [Interpolation function period None None]).

(** [multi_rollup(self, functions, period, start=None)], lines 170-177. *)
Definition multi_rollup (functions : list string) (period : string)
    (start : option PyValue) (q : QueryBuilder) : QueryBuilder :=
  with_pipeline q (pipeline q ++ [MultiRollup functions period start]).

(** [rollup(self, function, period, start=None)], lines 179-188. *)
Definition rollup (function period : string) (start : option PyValue)
    (q : QueryBuilder) : QueryBuilder :=
  with_pipeline q (pipeline q ++ [Rollup function period start]).

(** *** Terminal methods *)

(** Body shared by [annotations], [changes], [logs] and [usage]:
    [isinstance(self.object_type, Rule)] is asked of the [str] stored by
    [__init__]. *)
Definition rule_read (msg : string) (method : monitoring_method) : M retval :=
  q ← get_self;
  if negb (isinstance (class_of_str (object_type q)) cls_Rule)
  then raise (TypeError msg)
  else
    key ← lift (extract_key_for_monitoring (rules (selection q)));
    delegate (monitoring_client method key).

(** [annotations(self)], lines 84-88. *)
Definition annotations : M retval :=
  rule_read "Annotations only applies to monitoring rules" get_annotations.

(** [changes(self)], lines 90-94. *)
Definition changes : M retval :=
  rule_read "Changes only applies to monitoring rules" get_changelog.

(** [logs(self)], lines 158-162. *)
Definition logs : M retval :=
  rule_read "Logs only applies to monitoring rules" get_logs.

(** [usage(self)], lines 249-253. *)
Definition usage : M retval :=
  rule_read "Usage only applies to monitoring rules" get_usage.

(** [delete(self, **kwargs)], lines 103-130.  With an object type other than
    the three tested, the method falls off its end and returns [None]. *)
Definition delete (kwargs : gmap string (option PyValue)) : M retval :=
  q ← get_self;
  if object_type q =? "devices" then
    let start := kwargs_get kwargs "start" in
    let end_ := kwargs_get kwargs "end" in
    if truthy start || truthy end_ then raise (ValueError DELETEDEVICEMSG)
    else
      set_operation (op_find "all");;
      q ← get_self;
      delegate (client_delete_device q)
  else if object_type q =? "sensors" then
    let start := kwargs_get kwargs "start" in
    let end_ := kwargs_get kwargs "end" in
    if is_None start || is_None end_ then raise (ValueError DELETEMSG)
    else
      '(device_key, sensor_key) ← _validate_datapoint_delete;
      set_operation (op_delete start end_ device_key sensor_key);;
      delegate (client_delete_from_sensors device_key sensor_key start end_)
  else if object_type q =? "rules" then
    key ← lift (extract_key_for_monitoring (rules (selection q)));
    delegate (monitoring_client delete_rule key)
  else mret PyNone.

(** [monitor(self, rule)], lines 164-168. *)
Definition monitor (rule : Rule) : M retval :=
  q ← get_self;
  (if bool_decide (pipeline q = []) then mret tt
   else warn (FutureWarning PIPEMSG));;
  delegate (client_monitor {| rule_handle := rule_handle rule;
                              rule_selection := Some (selection q) |}).

(** [read(self, **kwargs)], lines 190-221. *)
Definition read (kwargs : gmap string (option PyValue)) : M retval :=
  q ← get_self;
  if object_type q =? "sensors" then
    start ← lift (kwargs_getitem kwargs "start");
    end_ ← lift (kwargs_getitem kwargs "end");
    set_operation (op_read start end_);;
    _normalize_pipeline_functions start end_;;
    q ← get_self;
    delegate (client_read q)
  else if object_type q =? "devices" then
    (if bool_decide (pipeline q = []) then mret tt
     else set_pipeline [];; warn (FutureWarning DEVICEMSG));;
    set_operation (op_find "all");;
    q ← get_self;
    delegate (client_search_devices q)
  else if object_type q =? "rules" then
    _handle_monitor_read get_rule
  else raise (TypeError "Only sensors, devices, and rules can be selected").

(** [single(self, function, timestamp=None, include_selection=False)],
    lines 223-240. *)
Definition single (function : string) (timestamp : option PyValue)
    (include_selection : bool) : M retval :=
  q ← get_self;
  if object_type q =? "sensors" then
    set_operation (op_single include_selection function timestamp);;
    q ← get_self;
    delegate (client_single q)
  else raise (TypeError "Single value only applies to sensors").

(** [latest(self, include_selection=False)], lines 242-247: the value of the
    call to [single] is not returned. *)
Definition latest (include_selection : bool) : M retval :=
  warn (TempoIQDeprecationWarning LATESTMSG);;
  _ ← single "latest" None include_selection;
  mret PyNone.

(** The terminal calls, as data. *)
Inductive terminal : Type :=
| t_read (kwargs : gmap string (option PyValue))
| t_delete (kwargs : gmap string (option PyValue))
| t_single (function : string) (timestamp : option PyValue)
    (include_selection : bool)
| t_latest (include_selection : bool)
| t_monitor (rule : Rule)
| t_annotations | t_changes | t_logs | t_usage.

Definition run (t : terminal) : M retval :=
  match t with
  | t_read kwargs => read kwargs
  | t_delete kwargs => delete kwargs
  | t_single f ts i => single f ts i
  | t_latest i => latest i
  | t_monitor rule => monitor rule
  | t_annotations => annotations
  | t_changes => changes
  | t_logs => logs
  | t_usage => usage
  end.

(** A builder that has issued no warning and made no call yet. *)
Definition fresh (q : QueryBuilder) : world :=
  {| self := q; warned := []; calls := [] |}.

(** *** Selection-accumulating method *)

Section Filter.

(** What [filter] uses of the [selection] module, which is not among the
    sources: the [selection_type] attribute of a clause, the text [str]
    gives for a selector, and [Selection.add]. *)
Variable clause_selection_type : selector -> string.
Variable selector_str : selector -> string.
Variable Selection_add : Selection -> selector -> Selection.

(** [selector.selection_type]. *)
Definition selection_type_of (s : selector) : string :=
  match s with
  | ScalarSelector t _ _ => t
  | DictSelectable t _ => t
  | AndClause _ | OrClause _ => clause_selection_type s
  end.

(** [isinstance(selector, (ScalarSelector, OrClause, AndClause))]. *)
Definition is_ScalarSelector_OrClause_AndClause (s : selector) : bool :=
  match s with
  | ScalarSelector _ _ _ | OrClause _ | AndClause _ => true
  | DictSelectable _ _ => false
  end.

(** [self.selection[key].add(selector)]: the dict has the three keys of
    [__init__] and no other. *)
Definition selection_add_at (key : string) (x : selector) (d : SelectionDict)
  : exn + SelectionDict :=
  if key =? "devices" then
    inr {| devices := Selection_add (devices d) x;
           sensors := sensors d; rules := rules d |}
  else if key =? "sensors" then
    inr {| devices := devices d;
           sensors := Selection_add (sensors d) x; rules := rules d |}
  else if key =? "rules" then
    inr {| devices := devices d; sensors := sensors d;
           rules := Selection_add (rules d) x |}
  else inl (KeyError key).

(** [filter(self, selector)], lines 132-144; the builder it returns is
    [self]. *)
Definition filter (x : selector) (q : QueryBuilder) : exn + QueryBuilder :=
  if negb (is_ScalarSelector_OrClause_AndClause x) then
    inl (TypeError ("Invalid object for filter: " +:+ dquote
                    +:+ selector_str x +:+ dquote))
  else
    match selection_add_at (selection_type_of x) x (selection q) with
    | inl e => inl e
    | inr d => inr {| object_type := object_type q; selection := d;
                      pipeline := pipeline q; operation := operation q |}
    end.

End Filter.

(** The pipeline-appending calls, as data, and the step each one appends. *)
Inductive pipeline_call : Type :=
| c_aggregate (function : string)
| c_convert_timezone (tz : string)
| c_find (function period : string) (start : option PyValue)
| c_interpolate (function period : string) (start end_ : option PyValue)
| c_multi_rollup (functions : list string) (period : string)
    (start : option PyValue)
| c_rollup (function period : string) (start : option PyValue).

Definition apply_call (q : QueryBuilder) (c : pipeline_call) : QueryBuilder :=
  match c with
  | c_aggregate f => aggregate f q
  | c_convert_timezone tz => convert_timezone tz q
  | c_find f p s => find f p s q
  | c_interpolate f p s e => interpolate f p s e q
  | c_multi_rollup fs p s => multi_rollup fs p s q
  | c_rollup f p s => rollup f p s q
  end.

(** A chain [q.c1(...).c2(...)...]. *)
Definition chain (q : QueryBuilder) (cs : list pipeline_call) : QueryBuilder :=
  fold_left apply_call cs q.

(** [self.selection.get(key)]: the selection of one category. *)
Definition bucket (key : string) (d : SelectionDict) : option Selection :=
  if key =? "devices" then Some (devices d)
  else if key =? "sensors" then Some (sensors d)
  else if key =? "rules" then Some (rules d)
  else None.

(** The step a pipeline-appending call constructs. *)
Definition appended_step (c : pipeline_call) : PipelineFunction :=
  match c with
  | c_aggregate f => Aggregation f
  | c_convert_timezone tz => ConvertTZ tz
  | c_find f p s => Find f p s
  | c_interpolate f p _ _ => Interpolation f p None None
  | c_multi_rollup fs p s => MultiRollup fs p s
  | c_rollup f p s => Rollup f p s
  end.

(** A bound that was set is kept; one that was [None] may have been given
    a value. *)
Definition keeps_bound (old new : option PyValue) : Prop :=
  old <> None -> new = old.

(** [f'] is [f] with, at most, some of its missing bounds filled in: the same
    class, the same other arguments. *)
Definition fills (f f' : PipelineFunction) : Prop :=
  match f, f' with
  | Aggregation a, Aggregation a' => a = a'
  | ConvertTZ tz, ConvertTZ tz' => tz = tz'
  | Rollup a p s, Rollup a' p' s' => a = a' /\ p = p' /\ keeps_bound s s'
  | MultiRollup a p s, MultiRollup a' p' s' =>
      a = a' /\ p = p' /\ keeps_bound s s'
  | Find a p s, Find a' p' s' => a = a' /\ p = p' /\ keeps_bound s s'
  | Interpolation a p s e, Interpolation a' p' s' e' =>
      a = a' /\ p = p' /\ keeps_bound s s' /\ keeps_bound e e'
  | _, _ => False
  end.

(** All the bounds a step can carry are set. *)
Definition fully_bound (f : PipelineFunction) : bool :=
  match f with
  | Rollup _ _ s | MultiRollup _ _ s | Find _ _ s => negb (is_None s)
  | Interpolation _ _ s e => negb (is_None s) && negb (is_None e)
  | Aggregation _ | ConvertTZ _ => true
  end.

End Builder.

Import Builder.

(* ================================================================= *)
(** ** Responses *)

Module Response.

(** The transport's raw result, as [DummyResponse] in the tests:
    [status_code], [reason] and [text]. *)
Record RawResponse : Type := {
  resp_status_code : Z;
  resp_reason : string;
  resp_text : string
}.

Definition SUCCESS : Z := 0.
Definition FAILURE : Z := 1.
Definition PARTIAL : Z := 2.

Record Response : Type := {
  status : Z;
  reason : string;
  successful : Z;
  error : option string
}.

(** Modelled from the spec: [tempoiq/response.py] is not among the sources;
    only its tests are.  [Response.__init__(resp, session)] stores the status
    code and the reason verbatim and classifies: the multi-status code 207 is
    partial, with the body text as error (as [test_response_constructor_partial]
    requires); any other code in [200,300) is success, with no error; the
    remaining codes are failure, with the body text as error.  The spec is
    silent on codes below 200, which fall to the last case here. *)
Definition Response__init__ (resp : RawResponse) : Response :=
  let code := resp_status_code resp in
  if (code =? 207)%Z then
    {| status := code; reason := resp_reason resp;
       successful := PARTIAL; error := Some (resp_text resp) |}
  else if (200 <=? code)%Z && (code <? 300)%Z then
    {| status := code; reason := resp_reason resp;
       successful := SUCCESS; error := None |}
  else
    {| status := code; reason := resp_reason resp;
       successful := FAILURE; error := Some (resp_text resp) |}.

(** Modelled from the spec: the [status_code] alias of [status]. *)
Definition status_code (r : Response) : Z := status r.

Inductive device_state_t : Type := existing_state | created_state | modified_state.

(** One value of a write response's JSON object. *)
Record write_entry : Type := {
  device_state : device_state_t;
  message : option string;
  success : bool
}.

Record WriteResponse : Type := {
  base : Response;
  data : gmap string write_entry
}.

(** Modelled from the spec: the outcome of a write response, from its decoded
    body alone: success if every entry succeeded, failure if every entry
    failed, partial otherwise. *)
Definition classify_entries (body : gmap string write_entry) : Z :=
  let entries := map_to_list body in
  if forallb (fun kv => success kv.2) entries then SUCCESS
  else if forallb (fun kv => negb (success kv.2)) entries then FAILURE
  else PARTIAL.

Section Decoding.

(** The JSON decoder applied to the body text; [None] when the text is not a
    JSON object of the expected shape. *)
Variable json_loads : string -> option (gmap string write_entry).

(** Modelled from the spec: [WriteResponse.__init__(resp, session)] builds
    the [Response] part, decodes the body and replaces the outcome by the one
    computed from the entries; a body that does not decode raises the
    decoder's error. *)
Definition WriteResponse__init__ (resp : RawResponse) : exn + WriteResponse :=
  let r := Response__init__ resp in
  match json_loads (resp_text resp) with
  | None => inl (ValueError "No JSON object could be decoded")
  | Some body =>
      inr {| base := {| status := status r; reason := reason r;
                        successful := classify_entries body;
                        error := error r |};
             data := body |}
  end.

End Decoding.

(** Modelled from the spec: the four views, recomputed from the decoded
    mapping each time they are consumed. *)
Definition failures (w : WriteResponse) : list (string * option string) :=
  omap (fun kv => if success kv.2 then None else Some (kv.1, message kv.2))
       (map_to_list (data w)).

Definition device_state_eqb (a b : device_state_t) : bool :=
  match a, b with
  | existing_state, existing_state | created_state, created_state
  | modified_state, modified_state => true
  | _, _ => false
  end.

Definition keys_in_state (st : device_state_t) (w : WriteResponse)
  : list string :=
  omap (fun kv => if success kv.2 && device_state_eqb (device_state kv.2) st
                  then Some kv.1 else None)
       (map_to_list (data w)).

Definition created : WriteResponse -> list string := keys_in_state created_state.
Definition existing : WriteResponse -> list string := keys_in_state existing_state.
Definition modified : WriteResponse -> list string := keys_in_state modified_state.

End Response.

Import Response.

(* ================================================================= *)
(** ** Statements and sample data

    The properties that need a name of their own, and the queries and
    responses on which the theorems below are run. *)

(** Rules selections: two keys under a clause, one key under a clause, and a
    bare key. *)
Definition two_rule_keys : Selection :=
  {| Selection.selection :=
       Some (OrClause [ScalarSelector "rules" "key" "r1";
                       ScalarSelector "rules" "key" "r2"]) |}.

Definition one_rule_key : Selection :=
  {| Selection.selection :=
       Some (AndClause [ScalarSelector "rules" "key" "r1"]) |}.

Definition bare_rule_key : Selection :=
  {| Selection.selection := Some (ScalarSelector "rules" "key" "r1") |}.

(** A rules selection whose clause holds one scalar selector beside a nested
    clause. *)
Definition one_key_beside_a_clause : Selection :=
  {| Selection.selection :=
       Some (OrClause [ScalarSelector "rules" "key" "r1";
                       AndClause [ScalarSelector "rules" "key" "r2";
                                  ScalarSelector "rules" "key" "r3"]]) |}.

(** The key-extraction rule as the specification words it, "the list
    contains" being a count of the scalar selectors the list holds: more
    than one is refused, exactly one has its value returned, and a scalar
    root has its value returned. *)
Definition extracts_as_stated : Prop :=
  forall sel : Selection,
    (forall ss, selectors_of (Selection.selection sel) = Some ss ->
                (1 < count_scalar ss)%nat ->
                exists msg, extract_key_for_monitoring sel = inl (ValueError msg))
    /\ (forall ss t k v,
          selectors_of (Selection.selection sel) = Some ss ->
          count_scalar ss = 1%nat ->
          In (ScalarSelector t k v) ss ->
          extract_key_for_monitoring sel = inr v)
    /\ (forall t k v,
          Selection.selection sel = Some (ScalarSelector t k v) ->
          extract_key_for_monitoring sel = inr v).

(** A sensors query with a rollup lacking its start, an interpolation and a
    find whose start is given. *)
Definition sample_sensors_query : QueryBuilder :=
  find "max" "1hour" (Some (py_datetime 7))
    (interpolate "linear" "1min" None None
       (rollup "mean" "1min" None (__init__ "Sensor"))).

(** The keyword arguments [start=S, end=E]. *)
Definition bounds (S E : option PyValue) : gmap string (option PyValue) :=
  <["start" := S]> (<["end" := E]> ∅).

(** The reading of "fail fast, no partial side effects": a terminal call
    that raises [ValueError] has called no collaborator and has left the
    builder as it was. *)
Definition fails_without_side_effects : Prop :=
  forall (t : terminal) (w w' : world) (msg : string),
    run t w = (inl (ValueError msg), w') ->
    calls w' = calls w /\ self w' = self w.

(** A sensors query whose only step is a rollup lacking its start. *)
Definition rollup_only_query : QueryBuilder :=
  rollup "mean" "1min" None (__init__ "Sensor").

(** The builder after [read(start=None, end=None)] has failed on it. *)
Definition failed_read_world : world :=
  (run (t_read (bounds None None)) (fresh rollup_only_query)).2.

(** [q] with its rules selection replaced. *)
Definition with_rules (q : QueryBuilder) (s : Selection) : QueryBuilder :=
  {| object_type := object_type q;
     selection := {| devices := devices (selection q);
                     sensors := sensors (selection q);
                     rules := s |};
     pipeline := pipeline q; operation := operation q |}.

(** A builder made for [Rule], selecting the one rule key ["r1"]. *)
Definition one_rule_query : QueryBuilder :=
  with_rules (__init__ "Rule") bare_rule_key.

(** A category's selection is absent, or compound, rather than one scalar
    key. *)
Definition absent_or_compound (x : option selector) : bool :=
  is_None x || is_Compound_or_DictSelectable x.

(** [q] with its devices and sensors selections replaced. *)
Definition with_devices_sensors (q : QueryBuilder) (d s : Selection)
  : QueryBuilder :=
  {| object_type := object_type q;
     selection := {| devices := d; sensors := s;
                     rules := rules (selection q) |};
     pipeline := pipeline q; operation := operation q |}.

(** Device ["d1"], sensor ["s1"], and the devices of one building. *)
Definition device_key_d1 : Selection :=
  {| Selection.selection := Some (ScalarSelector "devices" "key" "d1") |}.

Definition sensor_key_s1 : Selection :=
  {| Selection.selection := Some (ScalarSelector "sensors" "key" "s1") |}.

Definition devices_by_attributes : Selection :=
  {| Selection.selection :=
       Some (DictSelectable "devices" [("building", "1234")]) |}.

(** A sensors query on device ["d1"], sensor ["s1"]. *)
Definition one_sensor_query : QueryBuilder :=
  with_devices_sensors (__init__ "Sensor") device_key_d1 sensor_key_s1.

(** A sensors query whose device selection is a dictionary selector. *)
Definition compound_device_query : QueryBuilder :=
  with_devices_sensors (__init__ "Sensor") devices_by_attributes sensor_key_s1.

(** The classification table as the specification words it: every code in
    [200,300) is success, every code from 300 up other than 207 is failure,
    207 is partial. *)
Definition classifies_as_stated (init : RawResponse -> Response.Response)
  : Prop :=
  forall resp : RawResponse,
    let c := resp_status_code resp in
    let r := init resp in
    ((200 <= c < 300)%Z -> successful r = SUCCESS /\ error r = None)
    /\ ((300 <= c)%Z -> c <> 207%Z ->
        successful r = FAILURE /\ error r = Some (resp_text resp))
    /\ (c = 207%Z ->
        successful r = PARTIAL /\ error r = Some (resp_text resp))
    /\ status r = c
    /\ reason r = resp_reason resp
    /\ status_code r = status r.

(** The response of [test_response_constructor_partial]. *)
Definition multi_status_response : RawResponse :=
  {| resp_status_code := 207; resp_reason := "Forbidden"; resp_text := "foo" |}.

(** The responses of the other two constructor tests. *)
Definition ok_response : RawResponse :=
  {| resp_status_code := 200; resp_reason := "OK"; resp_text := "" |}.

Definition forbidden_response : RawResponse :=
  {| resp_status_code := 403; resp_reason := "Forbidden"; resp_text := "foo" |}.

(** One decoded entry of a write response. *)
Definition entry (st : device_state_t) (msg : option string) (ok : bool)
  : write_entry :=
  {| device_state := st; message := msg; success := ok |}.

(** The three bodies of [TestWriteResponse.setUp], decoded. *)
Definition all_success : gmap string write_entry :=
  <["key1" := entry existing_state None true]>
    (<["key2" := entry created_state None true]>
       (<["key3" := entry modified_state None true]> ∅)).

Definition partial_success : gmap string write_entry :=
  <["key1" := entry existing_state None true]>
    (<["key2" := entry created_state (Some "bad things happened") false]> ∅).

Definition all_failures : gmap string write_entry :=
  <["key1" := entry existing_state (Some "bad things happened") false]>
    (<["key2" := entry created_state (Some "worse things happened") false]> ∅).

(** A decoder for the tests, which names each body text by its fixture. *)
Definition test_loads (text : string) : option (gmap string write_entry) :=
  if text =? "all_success" then Some all_success
  else if text =? "partial_success" then Some partial_success
  else if text =? "all_failures" then Some all_failures
  else None.

(** [DummyResponse()] with [text] replaced. *)
Definition dummy (text : string) : RawResponse :=
  {| resp_status_code := 200; resp_reason := "OK"; resp_text := text |}.

(* ================================================================= *)
(** ** Key extraction *)

Section KeyExtraction.

Lemma count_scalar_le_length (ss : list selector) :
  (count_scalar ss <= length ss)%nat.
Proof.
  unfold count_scalar. induction ss as [|s ss IH]; simpl; [lia|].
  destruct (is_scalar s); simpl; lia.
Qed.

(** A list of more than one selector is refused whatever it holds. *)
Lemma extract_key_many (sel : Selection) (ss : list selector) :
  selectors_of (Selection.selection sel) = Some ss ->
  (1 < length ss)%nat ->
  extract_key_for_monitoring sel = inl (ValueError ONEKEYMSG).
Proof.
  intros Hss Hlen. unfold extract_key_for_monitoring. rewrite Hss.
  destruct (Nat.ltb_spec 1 (length ss)); [reflexivity | lia].
Qed.

(** C6, as stated, does not hold: a list that contains exactly one scalar
    selector beside another selector has more than one element, and is
    refused. *)
Lemma extracts_as_stated_counterexample :
  selectors_of (Selection.selection one_key_beside_a_clause)
  = Some [ScalarSelector "rules" "key" "r1";
          AndClause [ScalarSelector "rules" "key" "r2";
                     ScalarSelector "rules" "key" "r3"]]
  /\ count_scalar [ScalarSelector "rules" "key" "r1";
                   AndClause [ScalarSelector "rules" "key" "r2";
                              ScalarSelector "rules" "key" "r3"]] = 1%nat
  /\ extract_key_for_monitoring one_key_beside_a_clause
     = inl (ValueError ONEKEYMSG)
  /\ ~ extracts_as_stated.
Proof.
  split; [reflexivity|]. split; [reflexivity|]. split; [reflexivity|].
  intros Hclaim.
  destruct (Hclaim one_key_beside_a_clause) as (_ & Hone & _).
  specialize (Hone _ "rules" "key" "r1" eq_refl eq_refl (or_introl eq_refl)).
  discriminate Hone.
Qed.

(** C6, amended. For a rules selection given to
    [extract_key_for_monitoring]: when the root expression carries a list of
    more than one selector, and so whenever the list holds more than one
    scalar selector, the call raises [ValueError]; when the list consists of
    exactly one selector, a scalar one, the call returns that selector's
    value; when the root is itself a scalar selector, the call returns its
    value. *)
Theorem extract_key_for_monitoring_spec (sel : Selection) :
  (forall ss, selectors_of (Selection.selection sel) = Some ss ->
              (1 < count_scalar ss)%nat ->
              extract_key_for_monitoring sel = inl (ValueError ONEKEYMSG))
  /\ (forall t k v,
        selectors_of (Selection.selection sel) = Some [ScalarSelector t k v] ->
        extract_key_for_monitoring sel = inr v)
  /\ (forall t k v,
        Selection.selection sel = Some (ScalarSelector t k v) ->
        extract_key_for_monitoring sel = inr v)
  /\ (forall ss, selectors_of (Selection.selection sel) = Some ss ->
                 (1 < length ss)%nat ->
                 extract_key_for_monitoring sel = inl (ValueError ONEKEYMSG)).
Proof.
  split; [|split; [|split]].
  - intros ss Hss Hcount. apply (extract_key_many sel ss Hss).
    pose proof (count_scalar_le_length ss). lia.
  - intros t k v Hss. unfold extract_key_for_monitoring. rewrite Hss.
    reflexivity.
  - intros t k v Hroot. unfold extract_key_for_monitoring. rewrite Hroot.
    reflexivity.
  - intros ss Hss Hlen. exact (extract_key_many sel ss Hss Hlen).
Qed.

End KeyExtraction.

Lemma extract_key_for_monitoring_spec_witness :
  extract_key_for_monitoring two_rule_keys = inl (ValueError ONEKEYMSG)
  /\ extract_key_for_monitoring one_rule_key = inr "r1"
  /\ extract_key_for_monitoring bare_rule_key = inr "r1"
  /\ extract_key_for_monitoring one_key_beside_a_clause
     = inl (ValueError ONEKEYMSG).
Proof.
  split; [|split; [|split]].
  - apply (proj1 (extract_key_for_monitoring_spec two_rule_keys)
             [ScalarSelector "rules" "key" "r1";
              ScalarSelector "rules" "key" "r2"]).
    + reflexivity.
    + vm_compute. lia.
  - apply (proj1 (proj2 (extract_key_for_monitoring_spec one_rule_key))
             "rules" "key" "r1").
    reflexivity.
  - apply (proj1 (proj2 (proj2 (extract_key_for_monitoring_spec bare_rule_key)))
             "rules" "key" "r1").
    reflexivity.
  - apply (proj2 (proj2 (proj2 (extract_key_for_monitoring_spec
                                  one_key_beside_a_clause)))
             [ScalarSelector "rules" "key" "r1";
              AndClause [ScalarSelector "rules" "key" "r2";
                         ScalarSelector "rules" "key" "r3"]]).
    + reflexivity.
    + vm_compute. lia.
Defined.

(* ================================================================= *)
(** ** Pipeline normalization *)

(** Unfolds the monadic plumbing of the builder's methods. *)
Ltac unfold_M :=
  unfold set_operation, set_pipeline, get_self, put_self, warn, delegate,
    raise, lift, mbind, M_bind, mret, M_ret in *.

Section Normalization.

Variables start end_ : option PyValue.

Lemma normalize_function_rmf_fail (f : PipelineFunction) :
  is_Rollup_MultiRollup_Find f = true ->
  is_None start || is_None end_ = true ->
  normalize_function start end_ f = inl (ValueError ROLLUPMSG).
Proof. intros Hf Hb. unfold normalize_function. rewrite Hf, Hb. reflexivity. Qed.

Lemma normalize_function_rmf_ok (f : PipelineFunction) :
  is_Rollup_MultiRollup_Find f = true ->
  is_None start || is_None end_ = false ->
  normalize_function start end_ f =
    inr (if is_None (trailing_start f) then set_trailing_start f start else f).
Proof.
  intros Hf Hb. unfold normalize_function. rewrite Hf, Hb.
  destruct (is_None (trailing_start f)); reflexivity.
Qed.

Lemma normalize_function_other (f : PipelineFunction) :
  is_Rollup_MultiRollup_Find f = false ->
  exists f', normalize_function start end_ f = inr f'.
Proof.
  intros Hf. unfold normalize_function. rewrite Hf.
  destruct f; eexists; reflexivity.
Qed.

(** The loop raises as soon as it meets a rollup, multi-rollup or find step
    while a bound is missing. *)
Lemma normalize_loop_fail (p : list PipelineFunction) :
  existsb is_Rollup_MultiRollup_Find p = true ->
  is_None start || is_None end_ = true ->
  (normalize_loop start end_ p).1 = Some (ValueError ROLLUPMSG).
Proof.
  intros Hex Hb. induction p as [|f p IH]; simpl in *; [discriminate|].
  destruct (is_Rollup_MultiRollup_Find f) eqn:Hf.
  - rewrite (normalize_function_rmf_fail f Hf Hb). reflexivity.
  - destruct (normalize_function_other f Hf) as [f' ->].
    simpl in Hex. specialize (IH Hex).
    destruct (normalize_loop start end_ p) as [e p']. exact IH.
Qed.

(** Otherwise it runs to the end, and every step has been normalized. *)
Lemma normalize_loop_ok (p : list PipelineFunction) :
  existsb is_Rollup_MultiRollup_Find p = false
  \/ is_None start || is_None end_ = false ->
  exists p', normalize_loop start end_ p = (None, p')
    /\ Forall2 (fun f f' => normalize_function start end_ f = inr f') p p'.
Proof.
  intros Hok. induction p as [|f p IH]; simpl.
  - exists []. split; [reflexivity | constructor].
  - assert (Hf : exists f', normalize_function start end_ f = inr f').
    { destruct (is_Rollup_MultiRollup_Find f) eqn:Hf.
      - destruct Hok as [Hex | Hb].
        + simpl in Hex. rewrite Hf in Hex. discriminate.
        + rewrite (normalize_function_rmf_ok f Hf Hb). eexists; reflexivity.
      - apply normalize_function_other, Hf. }
    destruct Hf as [f' Hf'].
    destruct IH as (p' & Hp' & Hall).
    { destruct Hok as [Hex | Hb]; [left | right; exact Hb].
      simpl in Hex. apply orb_false_iff in Hex. apply Hex. }
    exists (f' :: p'). rewrite Hf', Hp'. split; [reflexivity|].
    constructor; assumption.
Qed.

End Normalization.

(** A sensors [read] with both keywords given: the operation is recorded,
    then the pipeline is normalized, then the transport is called. *)
Lemma read_sensors_unfold (kwargs : gmap string (option PyValue))
    (S E : option PyValue) (w : world) :
  object_type (self w) = "sensors" ->
  kwargs !! "start" = Some S ->
  kwargs !! "end" = Some E ->
  read kwargs w =
    let q := with_pipeline (with_operation (self w) (op_read S E))
               (normalize_loop S E (pipeline (self w))).2 in
    match (normalize_loop S E (pipeline (self w))).1 with
    | Some e => (inl e, {| self := q; warned := warned w; calls := calls w |})
    | None => (inr (Returned (client_read q)),
               {| self := q; warned := warned w;
                  calls := calls w ++ [client_read q] |})
    end.
Proof.
  intros Hty HS HE. unfold read, _normalize_pipeline_functions, kwargs_getitem.
  unfold_M. simpl. rewrite Hty, HS, HE. simpl.
  destruct (normalize_loop S E (pipeline (self w))) as [[e|] p]; reflexivity.
Qed.

(** C1. On a sensors builder, [read(start=S, end=E)]: when the pipeline holds
    a rollup, multi-rollup or find step and [S] or [E] is [None], the call
    raises [ValueError]; otherwise the call goes through, every such step
    whose trailing start was [None] has it equal to [S] afterwards, and every
    such step whose start was set is unchanged. *)
Theorem read_normalizes_rollup_like (kwargs : gmap string (option PyValue))
    (S E : option PyValue) (w : world) :
  object_type (self w) = "sensors" ->
  kwargs !! "start" = Some S ->
  kwargs !! "end" = Some E ->
  (existsb is_Rollup_MultiRollup_Find (pipeline (self w)) = true ->
   S = None \/ E = None ->
   exists w', read kwargs w = (inl (ValueError ROLLUPMSG), w'))
  /\ (~ (existsb is_Rollup_MultiRollup_Find (pipeline (self w)) = true
         /\ (S = None \/ E = None)) ->
      exists w',
        read kwargs w = (inr (Returned (client_read (self w'))), w')
        /\ length (pipeline (self w')) = length (pipeline (self w))
        /\ forall i f,
             pipeline (self w) !! i = Some f ->
             is_Rollup_MultiRollup_Find f = true ->
             (trailing_start f = None ->
              pipeline (self w') !! i = Some (set_trailing_start f S)
              /\ trailing_start (set_trailing_start f S) = S)
             /\ (trailing_start f <> None ->
                 pipeline (self w') !! i = Some f)).
Proof.
  intros Hty HS HE.
  rewrite (read_sensors_unfold kwargs S E w Hty HS HE). cbv zeta.
  split.
  - intros Hex Hnone.
    assert (Hb : is_None S || is_None E = true).
    { destruct Hnone as [-> | ->]; [reflexivity|]. destruct S; reflexivity. }
    rewrite (normalize_loop_fail S E _ Hex Hb). eexists; reflexivity.
  - intros Hnot.
    assert (Hok : existsb is_Rollup_MultiRollup_Find (pipeline (self w)) = false
                  \/ is_None S || is_None E = false).
    { destruct (existsb _ _) eqn:Hex; [right | left; reflexivity].
      destruct S, E; try reflexivity; exfalso; apply Hnot; auto. }
    destruct (normalize_loop_ok S E _ Hok) as (p' & Hp' & Hall).
    rewrite Hp'. simpl. eexists (Build_world _ _ _).
    split; [reflexivity|]. simpl.
    split; [symmetry; eapply Forall2_length; exact Hall|].
    intros i f Hi Hf.
    destruct (Forall2_lookup_l _ _ _ _ _ Hall Hi) as (f' & Hi' & Hf').
    assert (Hb : is_None S || is_None E = false).
    { destruct Hok as [Hex | Hb]; [|exact Hb].
      exfalso. apply list_elem_of_lookup_2 in Hi.
      assert (existsb is_Rollup_MultiRollup_Find (pipeline (self w)) = true).
      { apply existsb_exists. exists f. split; [|exact Hf].
        apply list_elem_of_In. exact Hi. }
      congruence. }
    rewrite (normalize_function_rmf_ok S E f Hf Hb) in Hf'.
    injection Hf' as <-.
    split.
    + intros Hnone. rewrite Hnone in Hi'. simpl in Hi'. split; [exact Hi'|].
      destruct f; simpl in *; try discriminate; reflexivity.
    + intros Hset. destruct (trailing_start f); [exact Hi' | congruence].
Qed.

Lemma read_normalizes_rollup_like_witness :
  (exists w', read (bounds None (Some (py_datetime 9))) (fresh sample_sensors_query)
              = (inl (ValueError ROLLUPMSG), w'))
  /\ (exists w',
        read (bounds (Some (py_datetime 3)) (Some (py_datetime 9))) (fresh sample_sensors_query)
        = (inr (Returned (client_read (self w'))), w')
        /\ pipeline (self w') !! 0%nat = Some (Rollup "mean" "1min" (Some (py_datetime 3)))
        /\ pipeline (self w') !! 2%nat = Some (Find "max" "1hour" (Some (py_datetime 7)))).
Proof.
  split.
  - apply (proj1 (read_normalizes_rollup_like (bounds None (Some (py_datetime 9)))
                    None (Some (py_datetime 9)) (fresh sample_sensors_query)
                    eq_refl eq_refl eq_refl)).
    + reflexivity.
    + left. reflexivity.
  - destruct (proj2 (read_normalizes_rollup_like (bounds (Some (py_datetime 3)) (Some (py_datetime 9)))
                       (Some (py_datetime 3)) (Some (py_datetime 9)) (fresh sample_sensors_query)
                       eq_refl eq_refl eq_refl))
      as (w' & Hread & _ & Hsteps).
    + intros [_ [H | H]]; discriminate H.
    + exists w'. split; [exact Hread|]. split.
      * apply (Hsteps 0%nat (Rollup "mean" "1min" None)); reflexivity.
      * apply (Hsteps 2%nat (Find "max" "1hour" (Some (py_datetime 7))));
          [reflexivity | reflexivity | discriminate].
Defined.

(* ================================================================= *)
(** ** Validation errors and side effects *)

(** A sensors read whose rollup makes normalization fail: the operation,
    [None] before the call, is [read] afterwards. *)
Lemma failed_read_has_set_operation :
  exists w',
    run (t_read (bounds None None)) (fresh rollup_only_query)
    = (inl (ValueError ROLLUPMSG), w')
    /\ operation (self (fresh rollup_only_query)) = None
    /\ operation (self w') = Some (op_read None None).
Proof. eexists. vm_compute. repeat split. Qed.

(** C2, as stated, does not hold: a terminal call that raises [ValueError]
    can leave the builder changed. *)
Lemma fails_without_side_effects_counterexample :
  ~ fails_without_side_effects.
Proof.
  intros Hclaim.
  destruct failed_read_has_set_operation as (w' & Hrun & Hbefore & Hafter).
  destruct (Hclaim _ _ _ _ Hrun) as [_ Hself].
  rewrite Hself, Hbefore in Hafter. discriminate Hafter.
Qed.


(** C2, amended. Whenever a terminal call raises [ValueError], no
    collaborator has been called, no warning has been issued, and the
    selection and the object type are what they were; for every terminal call
    other than a sensors read the whole builder is unchanged; a sensors read
    that fails has already recorded [operation = read(start, end)]. *)
Theorem validation_error_effects (t : terminal) (w w' : world) (msg : string) :
  run t w = (inl (ValueError msg), w') ->
  calls w' = calls w
  /\ warned w' = warned w
  /\ selection (self w') = selection (self w)
  /\ object_type (self w') = object_type (self w)
  /\ ((forall kwargs, t = t_read kwargs -> object_type (self w) <> "sensors") ->
      self w' = self w)
  /\ (forall kwargs, t = t_read kwargs -> object_type (self w) = "sensors" ->
      exists S E, kwargs !! "start" = Some S /\ kwargs !! "end" = Some E
                  /\ operation (self w') = Some (op_read S E)).
Proof.
  intros Hrun. destruct t as [kwargs|kwargs|f ts i|i|rule| | | |]; simpl in Hrun.
  - (* read *)
    destruct (object_type (self w) =? "sensors") eqn:Hty.
    + apply String.eqb_eq in Hty.
      destruct (kwargs !! "start") as [S|] eqn:HS;
        [|unfold read, kwargs_getitem in Hrun; unfold_M; simpl in Hrun;
          rewrite Hty, HS in Hrun; simpl in Hrun; discriminate].
      destruct (kwargs !! "end") as [E|] eqn:HE;
        [|unfold read, kwargs_getitem in Hrun; unfold_M; simpl in Hrun;
          rewrite Hty, HS, HE in Hrun; simpl in Hrun; discriminate].
      rewrite (read_sensors_unfold kwargs S E w Hty HS HE) in Hrun.
      cbv zeta in Hrun.
      destruct (normalize_loop S E (pipeline (self w))) as [[e|] p];
        simpl in Hrun; [|discriminate].
      injection Hrun as -> <-. simpl.
      repeat split; try reflexivity.
      * intros Hnot. exfalso. apply (Hnot kwargs eq_refl Hty).
      * intros kw [= <-] _. exists S, E. auto.
    + unfold read, _handle_monitor_read in Hrun. unfold_M. simpl in Hrun.
      rewrite Hty in Hrun.
      assert (Hne : object_type (self w) <> "sensors").
      { intros Heq. apply String.eqb_eq in Heq. congruence. }
      repeat case_match; simplify_eq; simpl;
        (repeat split; try reflexivity; try congruence;
         intros kw [= <-] Heq; contradiction).
  - (* delete *)
    unfold delete, _validate_datapoint_delete in Hrun. unfold_M. simpl in Hrun.
    repeat case_match; simplify_eq; simpl;
      (repeat split; try reflexivity; intros; discriminate).
  - unfold single in Hrun. unfold_M. simpl in Hrun.
    repeat case_match; simplify_eq.
  - unfold latest, single in Hrun. unfold_M. simpl in Hrun.
    repeat case_match; simplify_eq.
  - unfold monitor in Hrun. unfold_M. simpl in Hrun.
    repeat case_match; simplify_eq.
  - unfold annotations, rule_read in Hrun. unfold_M. simpl in Hrun. discriminate.
  - unfold changes, rule_read in Hrun. unfold_M. simpl in Hrun. discriminate.
  - unfold logs, rule_read in Hrun. unfold_M. simpl in Hrun. discriminate.
  - unfold usage, rule_read in Hrun. unfold_M. simpl in Hrun. discriminate.
Qed.

Lemma validation_error_effects_witness :
  calls failed_read_world = []
  /\ selection (self failed_read_world) = selection rollup_only_query
  /\ exists S E, operation (self failed_read_world) = Some (op_read S E).
Proof.
  destruct (validation_error_effects (t_read (bounds None None))
              (fresh rollup_only_query) failed_read_world ROLLUPMSG)
    as (Hcalls & _ & Hsel & _ & _ & Hop).
  - vm_compute. reflexivity.
  - split; [exact Hcalls|]. split; [exact Hsel|].
    destruct (Hop (bounds None None) eq_refl eq_refl) as (S & E & _ & _ & HSE).
    exists S, E. exact HSE.
Defined.

(* ================================================================= *)
(** ** Reads of a monitoring rule's history *)

(** Whatever the builder, the four methods raise [TypeError]: the object type
    they test is the [str] that [__init__] stored. *)
Lemma rule_read_raises (msg : string) (method : monitoring_method) (w : world) :
  rule_read msg method w = (inl (TypeError msg), w).
Proof. reflexivity. Qed.

(** C3 (the code departs from the claim). On a builder whose object type is
    rules and whose rules selection is the single key ["r1"], each of
    [annotations], [changes], [logs] and [usage] raises [TypeError] and calls
    no collaborator, where the claim has the monitoring read called with
    ["r1"]. *)
Theorem rule_reads_raise_TypeError_on_rules :
  object_type one_rule_query = "rules"
  /\ extract_key_for_monitoring (rules (selection one_rule_query)) = inr "r1"
  /\ annotations (fresh one_rule_query)
     = (inl (TypeError "Annotations only applies to monitoring rules"),
        fresh one_rule_query)
  /\ changes (fresh one_rule_query)
     = (inl (TypeError "Changes only applies to monitoring rules"),
        fresh one_rule_query)
  /\ logs (fresh one_rule_query)
     = (inl (TypeError "Logs only applies to monitoring rules"),
        fresh one_rule_query)
  /\ usage (fresh one_rule_query)
     = (inl (TypeError "Usage only applies to monitoring rules"),
        fresh one_rule_query).
Proof. repeat split. Qed.

(* ================================================================= *)
(** ** Interpolation *)

Lemma interpolate_pipeline (f p : string) (S E : option PyValue)
    (q : QueryBuilder) :
  pipeline (interpolate f p S E q)
  = (pipeline q ++ [Interpolation f p None None])%list.
Proof. reflexivity. Qed.

(** The interpolation case of the normalization loop never raises, and fills
    each missing bound from the terminal call's. *)
Lemma normalize_function_Interpolation (start end_ : option PyValue)
    (f p : string) (s e : option PyValue) :
  normalize_function start end_ (Interpolation f p s e)
  = inr (Interpolation f p (if is_None s then start else s)
                           (if is_None e then end_ else e)).
Proof. reflexivity. Qed.

(** C4 (the code departs from the claim). [interpolate(f, p, start=3, end=9)]
    appends a step whose start and end are [None], not 3 and 9; a later
    [read(start=100, end=200)] then hands the transport an interpolation over
    100 to 200. *)
Theorem interpolate_drops_its_bounds :
  pipeline (interpolate "linear" "1min" (Some (py_datetime 3)) (Some (py_datetime 9)) (__init__ "Sensor"))
  = [Interpolation "linear" "1min" None None]
  /\ exists w',
       read (bounds (Some (py_datetime 100)) (Some (py_datetime 200)))
            (fresh (interpolate "linear" "1min" (Some (py_datetime 3)) (Some (py_datetime 9))
                      (__init__ "Sensor")))
       = (inr (Returned (client_read (self w'))), w')
       /\ pipeline (self w')
          = [Interpolation "linear" "1min" (Some (py_datetime 100)) (Some (py_datetime 200))].
Proof.
  split; [reflexivity|]. eexists (Build_world _ _ _). vm_compute.
  split; reflexivity.
Qed.

(* ================================================================= *)
(** ** The deprecated [latest] *)

(** [latest] warns, runs [single("latest", ...)], and drops its value. *)
Lemma latest_runs_single (i : bool) (w : world) :
  latest i w =
    let w0 := {| self := self w;
                 warned := warned w ++ [TempoIQDeprecationWarning LATESTMSG];
                 calls := calls w |} in
    match single "latest" None i w0 with
    | (inl e, w') => (inl e, w')
    | (inr _, w') => (inr PyNone, w')
    end.
Proof.
  unfold latest, single. unfold_M. simpl.
  destruct (object_type (self w) =? "sensors"); reflexivity.
Qed.

(** C10 (the code departs from the claim). On a sensors builder,
    [single("latest", include_selection=True)] returns what the transport
    returned, while [latest(include_selection=True)] makes the same call and
    returns [None]. *)
Theorem latest_returns_None :
  let q := with_operation (__init__ "Sensor") (op_single true "latest" None) in
  (single "latest" None true (fresh (__init__ "Sensor"))).1
  = inr (Returned (client_single q))
  /\ latest true (fresh (__init__ "Sensor"))
     = (inr PyNone,
        {| self := q;
           warned := [TempoIQDeprecationWarning LATESTMSG];
           calls := [client_single q] |}).
Proof. split; reflexivity. Qed.

(* ================================================================= *)
(** ** Deletion *)

Lemma absent_or_compound_false (x : option selector) :
  absent_or_compound x = false -> exists t k v, x = Some (ScalarSelector t k v).
Proof.
  destruct x as [[t k v| | |]|]; try discriminate. intros _. eauto.
Qed.

Lemma validate_datapoint_delete_refuses (w : world) :
  absent_or_compound (Selection.selection (devices (selection (self w)))) = true
  \/ absent_or_compound (Selection.selection (sensors (selection (self w)))) = true ->
  _validate_datapoint_delete w = (inl (ValueError DELETEKEYMSG), w).
Proof.
  unfold _validate_datapoint_delete, absent_or_compound. unfold_M. simpl.
  destruct (Selection.selection (devices (selection (self w)))) as [[| | |]|];
    destruct (Selection.selection (sensors (selection (self w)))) as [[| | |]|];
    simpl; intros [H | H]; try discriminate H; reflexivity.
Qed.

(** C5. On a sensors builder, [delete(start=S, end=E)] raises [ValueError]
    when [S] or [E] is [None], and raises [ValueError] when the devices or
    the sensors selection is absent or compound; when both selections are
    scalar keys and both bounds are given, it records
    [operation = delete(start=S, stop=E, device_key, sensor_key)] with the two
    selectors' values and calls
    [delete_from_sensors(device_key, sensor_key, S, E)]. *)
Theorem delete_from_sensors_spec (kwargs : gmap string (option PyValue))
    (w : world) :
  object_type (self w) = "sensors" ->
  let S := kwargs_get kwargs "start" in
  let E := kwargs_get kwargs "end" in
  let d := Selection.selection (devices (selection (self w))) in
  let s := Selection.selection (sensors (selection (self w))) in
  (S = None \/ E = None ->
   delete kwargs w = (inl (ValueError DELETEMSG), w))
  /\ (absent_or_compound d = true \/ absent_or_compound s = true ->
      exists msg, delete kwargs w = (inl (ValueError msg), w))
  /\ (forall t1 k1 device_key t2 k2 sensor_key,
        S <> None -> E <> None ->
        d = Some (ScalarSelector t1 k1 device_key) ->
        s = Some (ScalarSelector t2 k2 sensor_key) ->
        let c := client_delete_from_sensors device_key sensor_key S E in
        exists w',
          delete kwargs w = (inr (Returned c), w')
          /\ operation (self w') = Some (op_delete S E device_key sensor_key)
          /\ pipeline (self w') = pipeline (self w)
          /\ selection (self w') = selection (self w)
          /\ object_type (self w') = object_type (self w)
          /\ warned w' = warned w
          /\ calls w' = (calls w ++ [c])%list).
Proof.
  intros Hty S E d s.
  assert (Hdev : (object_type (self w) =? "devices") = false).
  { rewrite Hty. reflexivity. }
  assert (Hsen : (object_type (self w) =? "sensors") = true).
  { rewrite Hty. reflexivity. }
  assert (Hdel : delete kwargs w =
            if is_None S || is_None E then (inl (ValueError DELETEMSG), w)
            else match _validate_datapoint_delete w with
                 | (inl e, w') => (inl e, w')
                 | (inr (dk, sk), w') =>
                     (inr (Returned (client_delete_from_sensors dk sk S E)),
                      {| self := with_operation (self w') (op_delete S E dk sk);
                         warned := warned w';
                         calls := calls w' ++
                                  [client_delete_from_sensors dk sk S E] |})
                 end).
  { unfold delete. unfold_M. simpl. rewrite Hdev, Hsen. fold S E.
    destruct (is_None S || is_None E); [reflexivity|].
    destruct (_validate_datapoint_delete w) as [[e|[dk sk]] w']; reflexivity. }
  split; [|split].
  - intros Hnone. rewrite Hdel.
    destruct Hnone as [-> | ->]; [reflexivity|]. destruct S; reflexivity.
  - intros Hsel. rewrite Hdel.
    destruct (is_None S || is_None E); [eexists; reflexivity|].
    rewrite (validate_datapoint_delete_refuses w Hsel). eexists; reflexivity.
  - intros t1 k1 dk t2 k2 sk HS HE Hd Hs c. rewrite Hdel.
    destruct S; [|congruence]. destruct E; [|congruence]. simpl.
    unfold _validate_datapoint_delete. unfold_M. simpl.
    fold d s. rewrite Hd, Hs. simpl.
    eexists (Build_world _ _ _). split; [reflexivity|]. simpl.
    repeat split.
Qed.

Lemma delete_from_sensors_spec_witness :
  delete (bounds None (Some (py_datetime 9))) (fresh one_sensor_query)
  = (inl (ValueError DELETEMSG), fresh one_sensor_query)
  /\ (exists msg,
        delete (bounds (Some (py_datetime 3)) (Some (py_datetime 9))) (fresh compound_device_query)
        = (inl (ValueError msg), fresh compound_device_query))
  /\ (exists w',
        delete (bounds (Some (py_datetime 3)) (Some (py_datetime 9)))
               (fresh one_sensor_query)
        = (inr (Returned (client_delete_from_sensors "d1" "s1"
                            (Some (py_datetime 3)) (Some (py_datetime 9)))),
           w')
        /\ operation (self w')
           = Some (op_delete (Some (py_datetime 3)) (Some (py_datetime 9))
                     "d1" "s1")
        /\ calls w'
           = [client_delete_from_sensors "d1" "s1"
                (Some (py_datetime 3)) (Some (py_datetime 9))]).
Proof.
  split; [|split].
  - apply (proj1 (delete_from_sensors_spec (bounds None (Some (py_datetime 9)))
                    (fresh one_sensor_query) eq_refl)).
    left. reflexivity.
  - apply (proj1 (proj2 (delete_from_sensors_spec (bounds (Some (py_datetime 3)) (Some (py_datetime 9)))
                           (fresh compound_device_query) eq_refl))).
    left. reflexivity.
  - destruct (proj2 (proj2 (delete_from_sensors_spec
                              (bounds (Some (py_datetime 3)) (Some (py_datetime 9)))
                              (fresh one_sensor_query) eq_refl))
                "devices" "key" "d1" "sensors" "key" "s1")
      as (w' & Hrun & Hop & _ & _ & _ & _ & Hcalls);
      [discriminate | discriminate | reflexivity | reflexivity |].
    exists w'. split; [exact Hrun|]. split; [exact Hop | exact Hcalls].
Defined.

(** Every [datetime] is true; zero, the empty string and [False] are not,
    although none of them is [None]. *)
Lemma truthy_datetime (t : Z) : truthy (Some (py_datetime t)) = true.
Proof. reflexivity. Qed.

Lemma falsy_not_None :
  truthy (Some (py_int 0)) = false /\ truthy (Some (py_str "")) = false
  /\ truthy (Some (py_bool false)) = false.
Proof. repeat split. Qed.

(** On a devices builder, [delete] raises [ValueError] exactly when the
    [start] or the [end] it was given is true, which every [datetime] is, and
    then nothing has been recorded or called; otherwise it records
    [operation = find] with quantifier [all], keeps the rest of the builder,
    and calls the transport's [delete_device] with the builder. *)
Theorem delete_devices_effects (kwargs : gmap string (option PyValue))
    (w : world) :
  object_type (self w) = "devices" ->
  let start := kwargs_get kwargs "start" in
  let end_ := kwargs_get kwargs "end" in
  (truthy start || truthy end_ = true ->
   delete kwargs w = (inl (ValueError DELETEDEVICEMSG), w))
  /\ (forall t, start = Some (py_datetime t) \/ end_ = Some (py_datetime t) ->
                delete kwargs w = (inl (ValueError DELETEDEVICEMSG), w))
  /\ (truthy start || truthy end_ = false ->
      exists w',
        delete kwargs w = (inr (Returned (client_delete_device (self w'))), w')
        /\ operation (self w') = Some (op_find "all")
        /\ pipeline (self w') = pipeline (self w)
        /\ selection (self w') = selection (self w)
        /\ object_type (self w') = object_type (self w)
        /\ warned w' = warned w
        /\ calls w' = (calls w ++ [client_delete_device (self w')])%list).
Proof.
  intros Hty start end_.
  assert (Hdev : (object_type (self w) =? "devices") = true).
  { rewrite Hty. reflexivity. }
  assert (Hraise : truthy start || truthy end_ = true ->
                   delete kwargs w = (inl (ValueError DELETEDEVICEMSG), w)).
  { intros Htrue. unfold delete. unfold_M. simpl. rewrite Hdev.
    fold start end_. rewrite Htrue. reflexivity. }
  split; [exact Hraise|]. split.
  - intros t [Hs | He]; apply Hraise.
    + rewrite Hs. reflexivity.
    + rewrite He. simpl. apply orb_true_r.
  - intros Hfalse. unfold delete. unfold_M. simpl. rewrite Hdev.
    fold start end_. rewrite Hfalse.
    eexists (Build_world _ _ _). split; [reflexivity|]. simpl.
    repeat split.
Qed.

Lemma delete_devices_effects_witness :
  delete (<["start" := Some (py_datetime 3)]> ∅) (fresh (__init__ "Device"))
  = (inl (ValueError DELETEDEVICEMSG), fresh (__init__ "Device"))
  /\ exists w',
       delete ∅ (fresh (__init__ "Device"))
       = (inr (Returned (client_delete_device (self w'))), w')
       /\ operation (self w') = Some (op_find "all")
       /\ calls w' = [client_delete_device (self w')].
Proof.
  split.
  - apply (proj1 (proj2 (delete_devices_effects
                           (<["start" := Some (py_datetime 3)]> ∅)
                           (fresh (__init__ "Device")) eq_refl)) 3%Z).
    left. reflexivity.
  - destruct (proj2 (proj2 (delete_devices_effects ∅
                              (fresh (__init__ "Device")) eq_refl)))
      as (w' & Hrun & Hop & _ & _ & _ & _ & Hcalls); [reflexivity|].
    exists w'. split; [exact Hrun|]. split; [exact Hop | exact Hcalls].
Defined.

(** C9 (the code departs from the claim). On a devices builder,
    [delete(start=0)] raises nothing although its [start] is not [None]: the
    test is on the truth of [start] and [end], so the call records
    [find(all)] and reaches the transport's [delete_device]; likewise with
    [end=""].  The sensors branch of the same method tests [is None]: there
    a [start] and an [end] of 0 count as given. *)
Theorem delete_devices_accepts_false_bounds :
  (exists w',
     delete (<["start" := Some (py_int 0)]> ∅) (fresh (__init__ "Device"))
     = (inr (Returned (client_delete_device (self w'))), w')
     /\ operation (self w') = Some (op_find "all")
     /\ calls w' = [client_delete_device (self w')])
  /\ (exists w',
        delete (<["end" := Some (py_str "")]> ∅) (fresh (__init__ "Device"))
        = (inr (Returned (client_delete_device (self w'))), w')
        /\ calls w' = [client_delete_device (self w')])
  /\ (delete (bounds (Some (py_int 0)) (Some (py_int 0)))
              (fresh one_sensor_query)).1
     = inr (Returned (client_delete_from_sensors "d1" "s1"
                        (Some (py_int 0)) (Some (py_int 0)))).
Proof.
  split; [|split].
  - eexists (Build_world _ _ _). vm_compute. repeat split.
  - eexists (Build_world _ _ _). vm_compute. repeat split.
  - vm_compute. reflexivity.
Qed.

(* ================================================================= *)
(** ** Classification of responses *)

(** No constructor meets the table as worded: at 207 it asks for success and
    for partial at once. *)
Lemma no_constructor_classifies_as_stated (init : RawResponse -> Response.Response) :
  ~ classifies_as_stated init.
Proof.
  intros Hclaim.
  destruct (Hclaim multi_status_response) as (Hsuccess & _ & Hpartial & _).
  destruct Hsuccess as [Hs _]; [simpl; lia|].
  destruct Hpartial as [Hp _]; [reflexivity|].
  rewrite Hs in Hp. discriminate Hp.
Qed.

(** C7, as stated, does not hold: 207 lies in [200,300), and the constructor
    makes it partial, with an error message. *)
Lemma classifies_as_stated_counterexample :
  successful (Response__init__ multi_status_response) = PARTIAL
  /\ error (Response__init__ multi_status_response) = Some "foo"
  /\ ~ classifies_as_stated Response__init__.
Proof.
  split; [reflexivity|]. split; [reflexivity|].
  apply no_constructor_classifies_as_stated.
Qed.

(** C7, amended. [Response.__init__] classifies every status code in
    [200,300) other than 207 as success (0) with no error message, every
    status code from 300 up other than 207 as failure (1) with the body text
    as error message, and 207 as partial (2) with the body text as error
    message; the
    status code and the reason are stored verbatim, and [status_code] equals
    [status]. *)
Theorem response_classification (resp : RawResponse) :
  let c := resp_status_code resp in
  let r := Response__init__ resp in
  ((200 <= c < 300)%Z -> c <> 207%Z ->
   successful r = SUCCESS /\ error r = None)
  /\ ((300 <= c)%Z -> c <> 207%Z ->
      successful r = FAILURE /\ error r = Some (resp_text resp))
  /\ (c = 207%Z ->
      successful r = PARTIAL /\ error r = Some (resp_text resp))
  /\ status r = c
  /\ reason r = resp_reason resp
  /\ status_code r = status r.
Proof.
  intros c r. subst r. unfold Response__init__, status_code. fold c.
  destruct (Z.eqb_spec c 207) as [-> | Hne].
  - repeat split; intros; try lia; reflexivity.
  - destruct (Z.leb_spec 200 c); destruct (Z.ltb_spec c 300); simpl;
      repeat split; intros; try lia; try reflexivity.
Qed.

(** The three constructor tests and the alias test of [TestResponse]. *)
Lemma response_classification_witness :
  (successful (Response__init__ ok_response) = 0%Z
   /\ error (Response__init__ ok_response) = None)
  /\ (successful (Response__init__ forbidden_response) = 1%Z
      /\ error (Response__init__ forbidden_response) = Some "foo")
  /\ (successful (Response__init__ multi_status_response) = 2%Z
      /\ error (Response__init__ multi_status_response) = Some "foo")
  /\ status_code (Response__init__ multi_status_response) = 207%Z.
Proof.
  split; [|split; [|split]].
  - apply (proj1 (response_classification ok_response)); simpl; lia.
  - apply (proj1 (proj2 (response_classification forbidden_response)));
      simpl; lia.
  - apply (proj1 (proj2 (proj2 (response_classification multi_status_response)))).
    reflexivity.
  - reflexivity.
Defined.

(* ================================================================= *)
(** ** Write responses *)

Section WriteResponses.

Implicit Types (body : gmap string write_entry) (w : WriteResponse).

Lemma forallb_map_to_list (P : write_entry -> bool) body :
  forallb (fun kv => P kv.2) (map_to_list body) = true
  <-> forall k e, body !! k = Some e -> P e = true.
Proof.
  rewrite forallb_forall. split.
  - intros Hall k e Hke. apply (Hall (k, e)).
    apply list_elem_of_In, elem_of_map_to_list, Hke.
  - intros Hall [k e] Hin. simpl.
    apply list_elem_of_In, elem_of_map_to_list in Hin. eauto.
Qed.

Lemma classify_all_success body :
  (forall k e, body !! k = Some e -> success e = true) ->
  classify_entries body = SUCCESS.
Proof.
  intros Hall. unfold classify_entries.
  apply (forallb_map_to_list success) in Hall. rewrite Hall. reflexivity.
Qed.

Lemma classify_all_failure body :
  body <> ∅ ->
  (forall k e, body !! k = Some e -> success e = false) ->
  classify_entries body = FAILURE.
Proof.
  intros Hne Hall. unfold classify_entries.
  destruct (forallb (fun kv => success kv.2) (map_to_list body)) eqn:Hs.
  - exfalso. apply Hne, map_to_list_empty_iff.
    destruct (map_to_list body) as [|[k e] l] eqn:Hl; [reflexivity|].
    assert (Hke : body !! k = Some e).
    { apply elem_of_map_to_list. rewrite Hl. left. }
    simpl in Hs. apply andb_true_iff in Hs as [Hs _].
    rewrite (Hall k e Hke) in Hs. discriminate Hs.
  - assert (Hf : forallb (fun kv => negb (success kv.2)) (map_to_list body) = true).
    { apply (forallb_map_to_list (fun e => negb (success e))).
      intros k e Hke. rewrite (Hall k e Hke). reflexivity. }
    rewrite Hf. reflexivity.
Qed.

Lemma classify_mixed body :
  ~ (forall k e, body !! k = Some e -> success e = true) ->
  ~ (forall k e, body !! k = Some e -> success e = false) ->
  classify_entries body = PARTIAL.
Proof.
  intros Hs Hf. unfold classify_entries.
  destruct (forallb (fun kv => success kv.2) (map_to_list body)) eqn:Hs'.
  - exfalso. apply Hs. apply (forallb_map_to_list success), Hs'.
  - destruct (forallb (fun kv => negb (success kv.2)) (map_to_list body)) eqn:Hf';
      [|reflexivity].
    exfalso. apply Hf. intros k e Hke.
    apply (proj1 (forallb_map_to_list (fun e => negb (success e)) body) Hf') in Hke.
    destruct (success e); [discriminate Hke | reflexivity].
Qed.

Lemma elem_of_failures w (k : string) (m : option string) :
  (k, m) ∈ failures w
  <-> exists e, data w !! k = Some e /\ success e = false /\ message e = m.
Proof.
  unfold failures. rewrite list_elem_of_omap. split.
  - intros ([k' e] & Hin & Hf). simpl in Hf.
    apply elem_of_map_to_list in Hin.
    destruct (success e) eqn:Hs; [discriminate|]. injection Hf as -> <-.
    eauto.
  - intros (e & Hke & Hs & <-). exists (k, e). split.
    + apply elem_of_map_to_list, Hke.
    + simpl. rewrite Hs. reflexivity.
Qed.

Lemma device_state_eqb_eq (a b : device_state_t) :
  device_state_eqb a b = true <-> a = b.
Proof. destruct a, b; simpl; split; congruence. Qed.

Lemma elem_of_keys_in_state (st : device_state_t) w (k : string) :
  k ∈ keys_in_state st w
  <-> exists e, data w !! k = Some e /\ success e = true /\ device_state e = st.
Proof.
  unfold keys_in_state. rewrite list_elem_of_omap. split.
  - intros ([k' e] & Hin & Hf). simpl in Hf.
    apply elem_of_map_to_list in Hin.
    destruct (success e) eqn:Hs; [|discriminate]. simpl in Hf.
    destruct (device_state_eqb (device_state e) st) eqn:Hst; [|discriminate].
    injection Hf as ->. apply device_state_eqb_eq in Hst. eauto.
  - intros (e & Hke & Hs & Hst). exists (k, e). split.
    + apply elem_of_map_to_list, Hke.
    + simpl. rewrite Hs. apply device_state_eqb_eq in Hst. rewrite Hst.
      reflexivity.
Qed.

(** A view that yields at most one item per entry, carrying the entry's key,
    yields no item twice. *)
Lemma NoDup_omap_keyed {B} (f : string * write_entry -> option B)
    (key : B -> string) (l : list (string * write_entry)) :
  (forall kv y, f kv = Some y -> key y = kv.1) ->
  NoDup l.*1 -> NoDup (omap f l).
Proof.
  intros Hkey. induction l as [|kv l IH]; simpl; [constructor|].
  intros Hnd. apply NoDup_cons in Hnd as [Hnotin Hnd].
  destruct (f kv) as [y|] eqn:Hy; [|auto].
  apply NoDup_cons. split; [|auto].
  intros Hin. apply list_elem_of_omap in Hin as (kv' & Hin' & Hy').
  apply Hnotin. apply list_elem_of_fmap. exists kv'. split; [|exact Hin'].
  rewrite <- (Hkey kv y Hy), <- (Hkey kv' y Hy'). reflexivity.
Qed.

Lemma NoDup_failures w : NoDup (failures w).
Proof.
  apply (NoDup_omap_keyed _ fst); [|apply NoDup_fst_map_to_list].
  intros [k e] y. simpl. destruct (success e); [discriminate|].
  intros [= <-]. reflexivity.
Qed.

Lemma NoDup_keys_in_state (st : device_state_t) w : NoDup (keys_in_state st w).
Proof.
  apply (NoDup_omap_keyed _ id); [|apply NoDup_fst_map_to_list].
  intros [k e] y. simpl.
  destruct (success e && device_state_eqb (device_state e) st); [|discriminate].
  intros [= <-]. reflexivity.
Qed.

End WriteResponses.

(** C8. For a write response whose body decodes to a non-empty mapping: the
    outcome is success when every entry succeeded, failure when every entry
    failed, and partial otherwise, whatever the HTTP status code; [failures]
    yields exactly the (key, message) pairs of the failed entries, and
    [created], [existing] and [modified] yield exactly the keys of the
    successful entries in that device state, each once. *)
Theorem write_response_classification
    (json_loads : string -> option (gmap string write_entry))
    (resp : RawResponse) (body : gmap string write_entry) :
  json_loads (resp_text resp) = Some body ->
  body <> ∅ ->
  exists w : WriteResponse,
    WriteResponse__init__ json_loads resp = inr w
    /\ ((forall k e, body !! k = Some e -> success e = true) ->
        successful (base w) = SUCCESS)
    /\ ((forall k e, body !! k = Some e -> success e = false) ->
        successful (base w) = FAILURE)
    /\ (~ (forall k e, body !! k = Some e -> success e = true) ->
        ~ (forall k e, body !! k = Some e -> success e = false) ->
        successful (base w) = PARTIAL)
    /\ (forall (code : Z) (phrase : string),
          exists w2 : WriteResponse,
            WriteResponse__init__ json_loads
              {| resp_status_code := code; resp_reason := phrase;
                 resp_text := resp_text resp |} = inr w2
            /\ successful (base w2) = successful (base w))
    /\ (forall k m,
          (k, m) ∈ failures w
          <-> exists e, body !! k = Some e /\ success e = false /\ message e = m)
    /\ (forall k,
          k ∈ created w
          <-> exists e, body !! k = Some e /\ success e = true
                        /\ device_state e = created_state)
    /\ (forall k,
          k ∈ existing w
          <-> exists e, body !! k = Some e /\ success e = true
                        /\ device_state e = existing_state)
    /\ (forall k,
          k ∈ modified w
          <-> exists e, body !! k = Some e /\ success e = true
                        /\ device_state e = modified_state)
    /\ NoDup (failures w) /\ NoDup (created w)
    /\ NoDup (existing w) /\ NoDup (modified w).
Proof.
  intros Hdecode Hne. unfold WriteResponse__init__. rewrite Hdecode.
  eexists. split; [reflexivity|]. simpl.
  split; [apply classify_all_success|].
  split; [apply classify_all_failure, Hne|].
  split; [apply classify_mixed|].
  split.
  { intros code phrase. simpl. rewrite Hdecode. eexists.
    split; reflexivity. }
  split; [intros k m; apply elem_of_failures|].
  split; [intros k; apply elem_of_keys_in_state|].
  split; [intros k; apply elem_of_keys_in_state|].
  split; [intros k; apply elem_of_keys_in_state|].
  split; [apply NoDup_failures|].
  split; [|split]; apply NoDup_keys_in_state.
Qed.

Lemma write_response_classification_witness :
  exists w : WriteResponse,
    WriteResponse__init__ test_loads (dummy "partial_success") = inr w
    /\ successful (base w) = PARTIAL
    /\ ("key2", Some "bad things happened") ∈ failures w
    /\ "key1" ∈ existing w.
Proof.
  destruct (write_response_classification test_loads (dummy "partial_success")
              partial_success eq_refl)
    as (w & Hw & _ & _ & Hpartial & _ & Hfail & _ & Hexisting & _).
  - apply insert_non_empty.
  - exists w. split; [exact Hw|]. split; [|split].
    + apply Hpartial.
      * intros Hall. specialize (Hall "key2" _ eq_refl). discriminate Hall.
      * intros Hall. specialize (Hall "key1" _ eq_refl). discriminate Hall.
    + apply Hfail. eexists. split; [reflexivity|]. split; reflexivity.
    + apply Hexisting. eexists. split; [reflexivity|]. split; reflexivity.
Defined.

(** The tests of [TestWriteResponse], run on the model. *)
Example test_status_success :
  sum_map id (successful ∘ base)
    (WriteResponse__init__ test_loads (dummy "all_success"))
  = inr 0%Z.
Proof. vm_compute. reflexivity. Qed.

Example test_status_partial :
  sum_map id (successful ∘ base)
    (WriteResponse__init__ test_loads (dummy "partial_success"))
  = inr 2%Z.
Proof. vm_compute. reflexivity. Qed.

Example test_status_failure :
  sum_map id (successful ∘ base)
    (WriteResponse__init__ test_loads (dummy "all_failures"))
  = inr 1%Z.
Proof. vm_compute. reflexivity. Qed.

Example test_getting_failures :
  sum_map id failures (WriteResponse__init__ test_loads (dummy "partial_success"))
  = inr [("key2", Some "bad things happened")].
Proof. vm_compute. reflexivity. Qed.

Example test_getting_created :
  sum_map id created (WriteResponse__init__ test_loads (dummy "all_success"))
  = inr ["key2"].
Proof. vm_compute. reflexivity. Qed.

Example test_getting_existing :
  sum_map id existing (WriteResponse__init__ test_loads (dummy "all_success"))
  = inr ["key1"].
Proof. vm_compute. reflexivity. Qed.

Example test_getting_modified :
  sum_map id modified (WriteResponse__init__ test_loads (dummy "all_success"))
  = inr ["key3"].
Proof. vm_compute. reflexivity. Qed.

(* ================================================================= *)
(** ** Further checks on the builder *)

(** [single] on a devices builder raises [TypeError] and calls nothing. *)
Example single_on_devices :
  single "latest" None false (fresh (__init__ "Device"))
  = (inl (TypeError "Single value only applies to sensors"),
     fresh (__init__ "Device")).
Proof. reflexivity. Qed.

(** [read] on a devices builder drops the accumulated pipeline with a
    warning, records [find(all)] and searches devices. *)
Example read_on_devices_drops_pipeline :
  let q := with_operation (__init__ "Device") (op_find "all") in
  read ∅ (fresh (rollup "mean" "1min" None (__init__ "Device")))
  = (inr (Returned (client_search_devices q)),
     {| self := q; warned := [FutureWarning DEVICEMSG];
        calls := [client_search_devices q] |}).
Proof. reflexivity. Qed.

(** [monitor] warns about a pipeline but keeps it, and hands the rule on
    with the builder's selection attached. *)
Example monitor_keeps_pipeline :
  let q := rollup "mean" "1min" None one_sensor_query in
  let r := {| rule_handle := "rule"; rule_selection := None |} in
  monitor r (fresh q)
  = (inr (Returned (client_monitor
                      {| rule_handle := "rule";
                         rule_selection := Some (selection q) |})),
     {| self := q; warned := [FutureWarning PIPEMSG];
        calls := [client_monitor
                    {| rule_handle := "rule";
                       rule_selection := Some (selection q) |}] |}).
Proof. reflexivity. Qed.

(** A sensors [read] without its [start] keyword fails on the lookup, before
    anything is recorded. *)
Example read_without_start :
  read ∅ (fresh rollup_only_query)
  = (inl (KeyError "start"), fresh rollup_only_query).
Proof. reflexivity. Qed.

(** A rules [read] delegates to [get_rule] with the extracted key. *)
Example read_on_rules :
  read ∅ (fresh one_rule_query)
  = (inr (Returned (monitoring_client get_rule "r1")),
     {| self := one_rule_query; warned := [];
        calls := [monitoring_client get_rule "r1"] |}).
Proof. reflexivity. Qed.

(* ================================================================= *)
(** ** Key extraction, in full *)

(** [extract_key_for_monitoring] returns a key exactly when the root of the
    selection is a scalar selector or a clause over one scalar selector, and
    the key is that selector's value. *)
Theorem extract_key_for_monitoring_returns (sel : Selection) (v : string) :
  extract_key_for_monitoring sel = inr v
  <-> (exists t k, Selection.selection sel = Some (ScalarSelector t k v))
      \/ (exists t k,
            selectors_of (Selection.selection sel)
            = Some [ScalarSelector t k v]).
Proof.
  unfold extract_key_for_monitoring. split.
  - destruct sel as [[[t k v'|ss|ss|t a]|]]; simpl; try discriminate.
    + intros [= ->]. left. eauto.
    + destruct ss as [|s [|s' ss]]; simpl; try discriminate.
      destruct s; simpl; try discriminate. intros [= ->]. right. eauto.
    + destruct ss as [|s [|s' ss]]; simpl; try discriminate.
      destruct s; simpl; try discriminate. intros [= ->]. right. eauto.
  - intros [(t & k & Hroot) | (t & k & Hss)].
    + rewrite Hroot. reflexivity.
    + rewrite Hss. reflexivity.
Qed.

(** It raises [ValueError] exactly when the root is a clause over more than
    one selector; every other failure is an [AttributeError] or an
    [IndexError]. *)
Theorem extract_key_for_monitoring_raises (sel : Selection) (e : exn) :
  extract_key_for_monitoring sel = inl e ->
  (e = ValueError ONEKEYMSG
   /\ exists ss, selectors_of (Selection.selection sel) = Some ss
                 /\ (1 < length ss)%nat)
  \/ (e = IndexError
      /\ selectors_of (Selection.selection sel) = Some [])
  \/ (e = AttributeError "value"
      /\ forall ss, selectors_of (Selection.selection sel) = Some ss ->
                    length ss = 1%nat).
Proof.
  unfold extract_key_for_monitoring.
  destruct sel as [[[t k v'|ss|ss|t a]|]]; simpl; try discriminate;
    try (intros [= <-]; right; right; split; [reflexivity | discriminate]).
  - destruct ss as [|s [|s' ss]]; simpl.
    + intros [= <-]. right. left. split; reflexivity.
    + destruct s; simpl; try discriminate; intros [= <-]; right; right;
        (split; [reflexivity | intros ? [= <-]; reflexivity]).
    + intros [= <-]. left. split; [reflexivity|].
      eexists. split; [reflexivity | simpl; lia].
  - destruct ss as [|s [|s' ss]]; simpl.
    + intros [= <-]. right. left. split; reflexivity.
    + destruct s; simpl; try discriminate; intros [= <-]; right; right;
        (split; [reflexivity | intros ? [= <-]; reflexivity]).
    + intros [= <-]. left. split; [reflexivity|].
      eexists. split; [reflexivity | simpl; lia].
Qed.

Lemma extract_key_for_monitoring_raises_witness :
  (exists ss, selectors_of (Selection.selection two_rule_keys) = Some ss
              /\ (1 < length ss)%nat)
  \/ selectors_of (Selection.selection two_rule_keys) = Some []
  \/ forall ss, selectors_of (Selection.selection two_rule_keys) = Some ss ->
                length ss = 1%nat.
Proof.
  destruct (extract_key_for_monitoring_raises two_rule_keys
              (ValueError ONEKEYMSG) eq_refl)
    as [[_ H] | [[_ H] | [_ H]]]; auto.
Defined.

(* ================================================================= *)
(** ** Reads *)


(** A sensors [read] that lacks its [start] or its [end] keyword raises
    [KeyError] for the first one missing, before anything is recorded: no
    operation, no change to the pipeline, no warning, no call. *)
Theorem read_sensors_missing_keyword (kwargs : gmap string (option PyValue))
    (w : world) :
  object_type (self w) = "sensors" ->
  kwargs !! "start" = None \/ kwargs !! "end" = None ->
  read kwargs w
  = (inl (KeyError (if is_None (kwargs !! "start") then "start" else "end")),
     w).
Proof.
  intros Hty Hmiss. unfold read, kwargs_getitem. unfold_M. simpl.
  rewrite Hty. simpl.
  destruct (kwargs !! "start") as [S|] eqn:HS; simpl; [|reflexivity].
  destruct Hmiss as [Hs | He]; [discriminate Hs|].
  rewrite He. reflexivity.
Qed.

Lemma read_sensors_missing_keyword_witness :
  read (<["start" := Some (py_datetime 3)]> ∅) (fresh rollup_only_query)
  = (inl (KeyError "end"), fresh rollup_only_query).
Proof.
  pose proof (read_sensors_missing_keyword (<["start" := Some (py_datetime 3)]> ∅)
                (fresh rollup_only_query) eq_refl
                (or_intror eq_refl)) as Hread.
  vm_compute in Hread. vm_compute. exact Hread.
Defined.





(** On a rules builder, [read] and [delete] ignore their keyword arguments
    and leave the builder as it is: with a key extracted they call
    [get_rule], respectively [delete_rule], with it and nothing else;
    otherwise they raise the extraction's error without any call. *)
Theorem rules_read_and_delete (kwargs : gmap string (option PyValue))
    (w : world) :
  object_type (self w) = "rules" ->
  match extract_key_for_monitoring (rules (selection (self w))) with
  | inr key =>
      read kwargs w
      = (inr (Returned (monitoring_client get_rule key)),
         {| self := self w; warned := warned w;
            calls := calls w ++ [monitoring_client get_rule key] |})
      /\ delete kwargs w
         = (inr (Returned (monitoring_client delete_rule key)),
            {| self := self w; warned := warned w;
               calls := calls w ++ [monitoring_client delete_rule key] |})
  | inl e => read kwargs w = (inl e, w) /\ delete kwargs w = (inl e, w)
  end.
Proof.
  intros Hty. unfold read, delete, _handle_monitor_read. unfold_M. simpl.
  rewrite Hty. simpl.
  destruct (extract_key_for_monitoring (rules (selection (self w))));
    split; reflexivity.
Qed.

Lemma rules_read_and_delete_witness :
  read ∅ (fresh one_rule_query)
  = (inr (Returned (monitoring_client get_rule "r1")),
     {| self := one_rule_query; warned := [];
        calls := [monitoring_client get_rule "r1"] |})
  /\ delete ∅ (fresh one_rule_query)
     = (inr (Returned (monitoring_client delete_rule "r1")),
        {| self := one_rule_query; warned := [];
           calls := [monitoring_client delete_rule "r1"] |}).
Proof.
  exact (rules_read_and_delete ∅ (fresh one_rule_query) eq_refl).
Defined.

(** On a builder whose object type is none of sensors, devices and rules,
    [read] and [single] raise [TypeError], while [delete] does nothing and
    returns [None]. *)
Theorem other_object_type (kwargs : gmap string (option PyValue))
    (f : string) (ts : option PyValue) (i : bool) (w : world) :
  object_type (self w) <> "sensors" ->
  object_type (self w) <> "devices" ->
  object_type (self w) <> "rules" ->
  read kwargs w
  = (inl (TypeError "Only sensors, devices, and rules can be selected"), w)
  /\ single f ts i w
     = (inl (TypeError "Single value only applies to sensors"), w)
  /\ delete kwargs w = (inr PyNone, w).
Proof.
  intros Hs Hd Hr.
  apply String.eqb_neq in Hs, Hd, Hr.
  unfold read, single, delete. unfold_M. simpl. rewrite Hs, Hd, Hr.
  repeat split.
Qed.

Lemma other_object_type_witness :
  read ∅ (fresh (__init__ "Widget"))
  = (inl (TypeError "Only sensors, devices, and rules can be selected"),
     fresh (__init__ "Widget"))
  /\ single "latest" None false (fresh (__init__ "Widget"))
     = (inl (TypeError "Single value only applies to sensors"),
        fresh (__init__ "Widget"))
  /\ delete ∅ (fresh (__init__ "Widget")) = (inr PyNone, fresh (__init__ "Widget")).
Proof.
  apply (other_object_type ∅ "latest" None false (fresh (__init__ "Widget")));
    vm_compute; discriminate.
Defined.




(** [latest] warns of its deprecation and then has the effects of
    [single("latest", include_selection=i)]: the same operation recorded and
    the same transport call, or the same [TypeError]; but where [single]
    returns the transport's value, [latest] returns [None]. *)
Theorem latest_effects (i : bool) (w : world) :
  let w0 := {| self := self w;
               warned := warned w ++ [TempoIQDeprecationWarning LATESTMSG];
               calls := calls w |} in
  (latest i w).2 = (single "latest" None i w0).2
  /\ (forall e, (single "latest" None i w0).1 = inl e ->
                (latest i w).1 = inl e)
  /\ (forall v, (single "latest" None i w0).1 = inr v ->
                (latest i w).1 = inr PyNone).
Proof.
  intros w0. rewrite latest_runs_single. cbv zeta. fold w0.
  destruct (single "latest" None i w0) as [[e|v] w']; simpl.
  - split; [reflexivity|]. split; [intros e' [= <-]; reflexivity|].
    intros v. discriminate.
  - split; [reflexivity|]. split; [intros e; discriminate|].
    intros v' _. reflexivity.
Qed.

(** [annotations], [changes], [logs] and [usage] raise [TypeError] on every
    builder, a rules builder included, and call nothing: the object type
    they test is the [str] that [__init__] stored, never a [Rule]. *)
Theorem rule_reads_always_raise (w : world) :
  annotations w
  = (inl (TypeError "Annotations only applies to monitoring rules"), w)
  /\ changes w = (inl (TypeError "Changes only applies to monitoring rules"), w)
  /\ logs w = (inl (TypeError "Logs only applies to monitoring rules"), w)
  /\ usage w = (inl (TypeError "Usage only applies to monitoring rules"), w).
Proof. repeat split; apply rule_read_raises. Qed.

(* ================================================================= *)
(** ** Accumulating the pipeline *)

Lemma apply_call_pipeline (q : QueryBuilder) (c : pipeline_call) :
  pipeline (apply_call q c) = (pipeline q ++ [appended_step c])%list
  /\ selection (apply_call q c) = selection q
  /\ operation (apply_call q c) = operation q
  /\ object_type (apply_call q c) = object_type q.
Proof. destruct c; repeat split. Qed.

(** A chain of pipeline-appending calls adds one step per call, in call
    order, after the steps already there, and changes nothing else of the
    builder. *)
Theorem chain_accumulates (cs : list pipeline_call) (q : QueryBuilder) :
  pipeline (chain q cs) = (pipeline q ++ map appended_step cs)%list
  /\ selection (chain q cs) = selection q
  /\ operation (chain q cs) = operation q
  /\ object_type (chain q cs) = object_type q.
Proof.
  unfold chain. revert q. induction cs as [|c cs IH]; intros q; simpl.
  - rewrite app_nil_r. repeat split.
  - destruct (IH (apply_call q c)) as (Hp & Hs & Ho & Ht).
    destruct (apply_call_pipeline q c) as (Hp' & Hs' & Ho' & Ht').
    rewrite Hp, Hs, Ho, Ht, Hp', Hs', Ho', Ht'.
    rewrite <- app_assoc. repeat split.
Qed.

(* ================================================================= *)
(** ** What normalization does to the steps *)

Lemma keeps_bound_refl (s : option PyValue) : keeps_bound s s.
Proof. intros _. reflexivity. Qed.

Lemma keeps_bound_fill (s v : option PyValue) :
  keeps_bound s (if is_None s then v else s).
Proof. intros Hs. destruct s; [reflexivity | congruence]. Qed.

Lemma fills_refl (f : PipelineFunction) : fills f f.
Proof. destruct f; simpl; repeat split; apply keeps_bound_refl. Qed.

Lemma normalize_function_fills (S E : option PyValue)
    (f f' : PipelineFunction) :
  normalize_function S E f = inr f' -> fills f f'.
Proof.
  unfold normalize_function.
  destruct f as [a|a p s0|a p s0|a p s0|a p s0 e0|tz]; simpl.
  - intros [= <-]. reflexivity.
  - destruct (is_None S || is_None E); [discriminate|].
    destruct s0; simpl; intros [= <-]; simpl; repeat split;
      try apply keeps_bound_refl; intros H; congruence.
  - destruct (is_None S || is_None E); [discriminate|].
    destruct s0; simpl; intros [= <-]; simpl; repeat split;
      try apply keeps_bound_refl; intros H; congruence.
  - destruct (is_None S || is_None E); [discriminate|].
    destruct s0; simpl; intros [= <-]; simpl; repeat split;
      try apply keeps_bound_refl; intros H; congruence.
  - intros [= <-]. simpl. repeat split; apply keeps_bound_fill.
  - intros [= <-]. reflexivity.
Qed.

(** Whether it ends normally or raises, the normalization loop leaves the
    pipeline with the same steps in the same order, each of the same class
    with the same function and period, and with every bound that was set
    still as it was. *)
Theorem normalize_loop_fills (S E : option PyValue)
    (p : list PipelineFunction) :
  Forall2 fills p (normalize_loop S E p).2.
Proof.
  induction p as [|f p IH]; simpl; [constructor|].
  destruct (normalize_function S E f) as [e|f'] eqn:Hf; simpl.
  - constructor; [apply fills_refl|].
    clear. induction p; constructor; [apply fills_refl | assumption].
  - destruct (normalize_loop S E p) as [e p']. simpl in *.
    constructor; [eapply normalize_function_fills, Hf | exact IH].
Qed.

Lemma normalize_function_fully_bound (S E : option PyValue)
    (f : PipelineFunction) :
  fully_bound f = true -> normalize_function S E f = inr f
  \/ (is_Rollup_MultiRollup_Find f = true /\ is_None S || is_None E = true).
Proof.
  unfold normalize_function.
  destruct f as [a|a p s0|a p s0|a p s0|a p s0 e0|tz]; simpl; auto.
  - destruct s0; [|discriminate]. intros _.
    destruct (is_None S || is_None E); auto.
  - destruct s0; [|discriminate]. intros _.
    destruct (is_None S || is_None E); auto.
  - destruct s0; [|discriminate]. intros _.
    destruct (is_None S || is_None E); auto.
  - destruct s0; [|discriminate]. destruct e0; [|discriminate]. auto.
Qed.

Lemma normalize_function_binds (s e : PyValue) (f f' : PipelineFunction) :
  normalize_function (Some s) (Some e) f = inr f' -> fully_bound f' = true.
Proof.
  unfold normalize_function.
  destruct f as [a|a p s0|a p s0|a p s0|a p s0 e0|tz]; simpl.
  - intros [= <-]. reflexivity.
  - destruct s0; intros [= <-]; reflexivity.
  - destruct s0; intros [= <-]; reflexivity.
  - destruct s0; intros [= <-]; reflexivity.
  - destruct s0, e0; intros [= <-]; reflexivity.
  - intros [= <-]. reflexivity.
Qed.

(** Normalizing with both bounds given binds every step. *)
Lemma normalize_loop_binds (s e : PyValue) (p p' : list PipelineFunction) :
  normalize_loop (Some s) (Some e) p = (None, p') ->
  forallb fully_bound p' = true.
Proof.
  revert p'. induction p as [|f p IH]; intros p'; simpl.
  - intros [= <-]. reflexivity.
  - destruct (normalize_function (Some s) (Some e) f) as [e0|f'] eqn:Hf;
      [discriminate|].
    destruct (normalize_loop (Some s) (Some e) p) as [e0 p0].
    intros [= -> <-]. simpl.
    rewrite (normalize_function_binds s e f f' Hf). apply (IH p0 eq_refl).
Qed.

(** A pipeline whose steps are all bound is left alone by the loop. *)
Lemma normalize_loop_bound (S E : option PyValue) (p : list PipelineFunction) :
  forallb fully_bound p = true -> (normalize_loop S E p).2 = p.
Proof.
  induction p as [|f p IH]; simpl; [reflexivity|].
  intros Hall. apply andb_true_iff in Hall as [Hf Hp].
  destruct (normalize_function_fully_bound S E f Hf) as [-> | [Hrmf Hb]].
  - specialize (IH Hp). destruct (normalize_loop S E p) as [e p']. simpl in *.
    rewrite IH. reflexivity.
  - rewrite (normalize_function_rmf_fail S E f Hrmf Hb). reflexivity.
Qed.

(** The bounds of the first successful read stick: after a sensors
    [read(start=s, end=e)] with both bounds given has gone through, a second
    [read] with other bounds, both given, goes through too and hands the
    transport the very same pipeline, under the new [read] operation. *)
Theorem second_read_keeps_first_bounds
    (kw1 kw2 : gmap string (option PyValue)) (s e s' e' : PyValue)
    (w w1 : world) (r : retval) :
  object_type (self w) = "sensors" ->
  kw1 !! "start" = Some (Some s) -> kw1 !! "end" = Some (Some e) ->
  kw2 !! "start" = Some (Some s') -> kw2 !! "end" = Some (Some e') ->
  read kw1 w = (inr r, w1) ->
  exists w2,
    read kw2 w1 = (inr (Returned (client_read (self w2))), w2)
    /\ pipeline (self w2) = pipeline (self w1)
    /\ operation (self w2) = Some (op_read (Some s') (Some e')).
Proof.
  intros Hty Hs He Hs' He' Hrun.
  rewrite (read_sensors_unfold kw1 _ _ w Hty Hs He) in Hrun. cbv zeta in Hrun.
  destruct (normalize_loop_ok (Some s) (Some e) (pipeline (self w)))
    as (p1 & Hp1 & _); [right; reflexivity|].
  rewrite Hp1 in Hrun. simpl in Hrun. injection Hrun as _ Hw1.
  assert (Hty1 : object_type (self w1) = "sensors").
  { rewrite <- Hw1. exact Hty. }
  assert (Hpipe1 : pipeline (self w1) = p1).
  { rewrite <- Hw1. reflexivity. }
  pose proof (normalize_loop_binds s e _ _ Hp1) as Hbound.
  rewrite (read_sensors_unfold kw2 _ _ w1 Hty1 Hs' He'). cbv zeta.
  rewrite Hpipe1.
  destruct (normalize_loop_ok (Some s') (Some e') p1)
    as (p2 & Hp2 & _); [right; reflexivity|].
  pose proof (normalize_loop_bound (Some s') (Some e') p1 Hbound) as Hsame.
  rewrite Hp2 in Hsame. simpl in Hsame. subst p2. rewrite Hp2. simpl.
  eexists (Build_world _ _ _). split; [reflexivity|]. split; reflexivity.
Qed.

Lemma second_read_keeps_first_bounds_witness :
  exists w1 w2,
    read (bounds (Some (py_datetime 3)) (Some (py_datetime 9))) (fresh sample_sensors_query)
    = (inr (Returned (client_read (self w1))), w1)
    /\ read (bounds (Some (py_datetime 100)) (Some (py_datetime 200))) w1
       = (inr (Returned (client_read (self w2))), w2)
    /\ pipeline (self w2) = pipeline (self w1)
    /\ operation (self w2) = Some (op_read (Some (py_datetime 100)) (Some (py_datetime 200))).
Proof.
  pose (w1 := (read (bounds (Some (py_datetime 3)) (Some (py_datetime 9)))
                    (fresh sample_sensors_query)).2).
  assert (Hfirst : read (bounds (Some (py_datetime 3)) (Some (py_datetime 9)))
                        (fresh sample_sensors_query)
                   = (inr (Returned (client_read (self w1))), w1)).
  { vm_compute. reflexivity. }
  destruct (second_read_keeps_first_bounds
              (bounds (Some (py_datetime 3)) (Some (py_datetime 9))) (bounds (Some (py_datetime 100)) (Some (py_datetime 200)))
              (py_datetime 3) (py_datetime 9) (py_datetime 100)
              (py_datetime 200) (fresh sample_sensors_query) w1 _
              eq_refl eq_refl eq_refl eq_refl eq_refl Hfirst)
    as (w2 & Hsecond & Hpipe & Hop).
  exists w1, w2. split; [exact Hfirst|].
  split; [exact Hsecond|]. split; [exact Hpipe | exact Hop].
Defined.

Lemma normalize_loop_done (S E : option PyValue)
    (p p' : list PipelineFunction) :
  normalize_loop S E p = (None, p') ->
  Forall2 (fun f f' => normalize_function S E f = inr f') p p'.
Proof.
  revert p'. induction p as [|f p IH]; intros p'; simpl.
  - intros [= <-]. constructor.
  - destruct (normalize_function S E f) as [e|f'] eqn:Hf; [discriminate|].
    destruct (normalize_loop S E p) as [e p0]. intros [= -> <-].
    constructor; [exact Hf | apply IH; reflexivity].
Qed.

(** When the loop raises, it has stopped at the first rollup, multi-rollup or
    find step: that step and all the steps after it are as they were, and
    the steps before it have been normalized. *)
Theorem normalize_loop_failure_point (S E : option PyValue)
    (p : list PipelineFunction) (e : exn) :
  (normalize_loop S E p).1 = Some e ->
  exists pre f rest pre',
    p = (pre ++ f :: rest)%list
    /\ is_Rollup_MultiRollup_Find f = true
    /\ existsb is_Rollup_MultiRollup_Find pre = false
    /\ (normalize_loop S E p).2 = (pre' ++ f :: rest)%list
    /\ Forall2 (fun g g' => normalize_function S E g = inr g') pre pre'.
Proof.
  induction p as [|f p IH]; simpl; [discriminate|].
  destruct (normalize_function S E f) as [e0|f'] eqn:Hf; simpl.
  - intros _. exists [], f, p, []. simpl.
    assert (Hrmf : is_Rollup_MultiRollup_Find f = true).
    { destruct (is_Rollup_MultiRollup_Find f) eqn:H; [reflexivity|].
      destruct (normalize_function_other S E f H) as [f' Hf'].
      rewrite Hf' in Hf. discriminate Hf. }
    repeat split; [exact Hrmf | constructor].
  - destruct (normalize_loop S E p) as [e0 p0] eqn:Hloop. simpl in *.
    intros He. destruct (IH He) as (pre & g & rest & pre' & -> & Hg & Hpre & -> & Hall).
    assert (Hrmf : is_Rollup_MultiRollup_Find f = false).
    { destruct (is_Rollup_MultiRollup_Find f) eqn:H; [|reflexivity].
      exfalso. unfold normalize_function in Hf. rewrite H in Hf.
      destruct (is_None S || is_None E) eqn:Hb; [discriminate|].
      destruct (normalize_loop_ok S E (pre ++ g :: rest)) as (p' & Hp' & _);
        [right; exact Hb|].
      rewrite Hp' in Hloop. injection Hloop as <- _. discriminate He. }
    exists (f :: pre), g, rest, (f' :: pre'). simpl. rewrite Hrmf. simpl.
    repeat split; try assumption. constructor; assumption.
Qed.

Lemma normalize_loop_failure_point_witness :
  exists pre f rest pre',
    pipeline sample_sensors_query = (pre ++ f :: rest)%list
    /\ is_Rollup_MultiRollup_Find f = true
    /\ existsb is_Rollup_MultiRollup_Find pre = false
    /\ (normalize_loop None (Some (py_datetime 9)) (pipeline sample_sensors_query)).2
       = (pre' ++ f :: rest)%list
    /\ Forall2 (fun g g' => normalize_function None (Some (py_datetime 9)) g = inr g')
         pre pre'.
Proof.
  apply (normalize_loop_failure_point None (Some (py_datetime 9))
           (pipeline sample_sensors_query) (ValueError ROLLUPMSG)).
  reflexivity.
Defined.

Lemma read_interpolation_step (kwargs : gmap string (option PyValue))
    (S E : option PyValue) (w w' : world) (r : retval) :
  object_type (self w) = "sensors" ->
  kwargs !! "start" = Some S ->
  kwargs !! "end" = Some E ->
  read kwargs w = (inr r, w') ->
  forall i f p s e,
    pipeline (self w) !! i = Some (Interpolation f p s e) ->
    pipeline (self w') !! i
    = Some (Interpolation f p (if is_None s then S else s)
                              (if is_None e then E else e)).
Proof.
  intros Hty HS HE Hrun i f p s e Hi.
  rewrite (read_sensors_unfold kwargs S E w Hty HS HE) in Hrun. cbv zeta in Hrun.
  destruct (normalize_loop S E (pipeline (self w))) as [[e0|] p'] eqn:Hloop;
    simpl in Hrun; [discriminate|].
  injection Hrun as _ <-. simpl.
  destruct (Forall2_lookup_l _ _ _ _ _ (normalize_loop_done S E _ _ Hloop) Hi)
    as (f' & Hi' & Hf').
  rewrite normalize_function_Interpolation in Hf'. injection Hf' as <-.
  exact Hi'.
Qed.

(** After a sensors [read] that goes through, every interpolation step has
    each bound it lacked filled from the call's [start] and [end] (which may
    themselves be [None]) and each bound it had unchanged. *)
Theorem read_fills_interpolation (kwargs : gmap string (option PyValue))
    (S E : option PyValue) (w w' : world) (r : retval) :
  object_type (self w) = "sensors" ->
  kwargs !! "start" = Some S ->
  kwargs !! "end" = Some E ->
  read kwargs w = (inr r, w') ->
  forall i f p s e,
    pipeline (self w) !! i = Some (Interpolation f p s e) ->
    pipeline (self w') !! i
    = Some (Interpolation f p (if is_None s then S else s)
                              (if is_None e then E else e)).
Proof.
  intros Hty HS HE Hrun i f p s e Hi.
  rewrite (read_sensors_unfold kwargs S E w Hty HS HE) in Hrun. cbv zeta in Hrun.
  destruct (normalize_loop S E (pipeline (self w))) as [[e0|] p'] eqn:Hloop;
    simpl in Hrun; [discriminate Hrun|].
  injection Hrun as _ <-. simpl.
  pose proof (normalize_loop_done S E _ _ Hloop) as Hall.
  destruct (Forall2_lookup_l _ _ _ _ _ Hall Hi) as (f' & Hi' & Hf').
  rewrite normalize_function_Interpolation in Hf'. injection Hf' as <-.
  exact Hi'.
Qed.

(** Whatever [start] and [end] were passed to [interpolate], once a sensors
    [read(start=S, end=E)] has gone through, the step that call appended
    carries [S] and [E]. *)
Theorem interpolate_then_read (f p : string) (S0 E0 S E : option PyValue)
    (kwargs : gmap string (option PyValue)) (q : QueryBuilder)
    (w' : world) (r : retval) :
  object_type q = "sensors" ->
  kwargs !! "start" = Some S ->
  kwargs !! "end" = Some E ->
  read kwargs (fresh (interpolate f p S0 E0 q)) = (inr r, w') ->
  pipeline (self w') !! length (pipeline q) = Some (Interpolation f p S E).
Proof.
  intros Hty HS HE Hrun.
  apply (read_interpolation_step kwargs S E
           (fresh (interpolate f p S0 E0 q)) w' r Hty HS HE Hrun
           (length (pipeline q)) f p None None).
  simpl. rewrite lookup_app_r by lia. rewrite Nat.sub_diag. reflexivity.
Qed.

Lemma interpolate_then_read_witness :
  exists w',
    read (bounds (Some (py_datetime 100)) None)
         (fresh (interpolate "linear" "1min" (Some (py_datetime 3)) (Some (py_datetime 9))
                   (__init__ "Sensor")))
    = (inr (Returned (client_read (self w'))), w')
    /\ pipeline (self w') !! 0%nat
       = Some (Interpolation "linear" "1min" (Some (py_datetime 100)) None).
Proof.
  pose (w' := (read (bounds (Some (py_datetime 100)) None)
                 (fresh (interpolate "linear" "1min" (Some (py_datetime 3)) (Some (py_datetime 9))
                           (__init__ "Sensor")))).2).
  assert (Hrun : read (bounds (Some (py_datetime 100)) None)
                   (fresh (interpolate "linear" "1min" (Some (py_datetime 3)) (Some (py_datetime 9))
                             (__init__ "Sensor")))
                 = (inr (Returned (client_read (self w'))), w')).
  { vm_compute. reflexivity. }
  exists w'. split; [exact Hrun|].
  apply (interpolate_then_read "linear" "1min" (Some (py_datetime 3)) (Some (py_datetime 9))
           (Some (py_datetime 100)) None (bounds (Some (py_datetime 100)) None) (__init__ "Sensor")
           w' _ eq_refl eq_refl eq_refl Hrun).
Defined.

Lemma read_fills_interpolation_witness :
  pipeline (self (read (bounds (Some (py_datetime 3)) (Some (py_datetime 9)))
                       (fresh sample_sensors_query)).2) !! 1%nat
  = Some (Interpolation "linear" "1min" (Some (py_datetime 3)) (Some (py_datetime 9))).
Proof.
  assert (Hrun : read (bounds (Some (py_datetime 3)) (Some (py_datetime 9))) (fresh sample_sensors_query)
                 = (inr (Returned (client_read
                           (self (read (bounds (Some (py_datetime 3)) (Some (py_datetime 9)))
                                       (fresh sample_sensors_query)).2))),
                    (read (bounds (Some (py_datetime 3)) (Some (py_datetime 9)))
                          (fresh sample_sensors_query)).2)).
  { vm_compute. reflexivity. }
  apply (read_fills_interpolation (bounds (Some (py_datetime 3)) (Some (py_datetime 9)))
           (Some (py_datetime 3)) (Some (py_datetime 9)) (fresh sample_sensors_query) _ _
           eq_refl eq_refl eq_refl Hrun 1%nat "linear" "1min" None None).
  reflexivity.
Defined.

(* ================================================================= *)
(** ** What every terminal call keeps *)

(** Unfolds a terminal call down to the plumbing. *)
Ltac unfold_terminal H :=
  unfold latest in H;
  unfold read, delete, single, monitor, annotations, changes, logs,
    usage, rule_read, _handle_monitor_read, _normalize_pipeline_functions,
    _validate_datapoint_delete, kwargs_getitem in H;
  unfold_M; simpl in H.


(** No terminal call changes the object type or the selection, none clears a
    recorded operation, and each issues at most one warning. *)
Theorem terminal_keeps (t : terminal) (w : world) :
  object_type (self (run t w).2) = object_type (self w)
  /\ selection (self (run t w).2) = selection (self w)
  /\ (operation (self w) <> None -> operation (self (run t w).2) <> None)
  /\ (warned (run t w).2 = warned w
      \/ exists x, warned (run t w).2 = (warned w ++ [x])%list).
Proof.
  destruct (run t w) as [r w'] eqn:Hrun. simpl.
  destruct t; simpl in Hrun; unfold_terminal Hrun;
    repeat case_match; simplify_eq; simpl;
    repeat split; eauto; discriminate.
Qed.



(* ================================================================= *)
(** ** Filtering *)

Section FilterProperties.

Variable clause_selection_type : selector -> string.
Variable selector_str : selector -> string.
Variable Selection_add : Selection -> selector -> Selection.

Abbreviation filter' := (filter clause_selection_type selector_str Selection_add).
Abbreviation type_of := (selection_type_of clause_selection_type).

Lemma selection_add_at_bucket (key : string) (x : selector)
    (d d' : SelectionDict) :
  selection_add_at Selection_add key x d = inr d' ->
  (exists s, bucket key d = Some s /\ bucket key d' = Some (Selection_add s x))
  /\ forall key', key' <> key -> bucket key' d' = bucket key' d.
Proof.
  unfold selection_add_at, bucket.
  destruct (String.eqb_spec key "devices") as [-> | Hd].
  { intros [= <-]. simpl. split; [eauto|]. intros key' Hne.
    apply String.eqb_neq in Hne. rewrite Hne. reflexivity. }
  destruct (String.eqb_spec key "sensors") as [-> | Hs].
  { intros [= <-]. simpl. split; [eauto|]. intros key' Hne.
    apply String.eqb_neq in Hne. rewrite Hne. reflexivity. }
  destruct (String.eqb_spec key "rules") as [-> | Hr]; [|discriminate].
  intros [= <-]. simpl. split; [eauto|]. intros key' Hne.
  apply String.eqb_neq in Hne. rewrite Hne. reflexivity.
Qed.

(** A [filter] that goes through has added the selector to the selection of
    the selector's own category and has left the two other categories, the
    pipeline, the operation and the object type as they were. *)
Theorem filter_frame (x : selector) (q q' : QueryBuilder) :
  filter' x q = inr q' ->
  (exists s, bucket (type_of x) (selection q) = Some s
             /\ bucket (type_of x) (selection q') = Some (Selection_add s x))
  /\ (forall key, key <> type_of x ->
                  bucket key (selection q') = bucket key (selection q))
  /\ pipeline q' = pipeline q
  /\ operation q' = operation q
  /\ object_type q' = object_type q.
Proof.
  unfold filter.
  destruct (is_ScalarSelector_OrClause_AndClause x); simpl; [|discriminate].
  destruct (selection_add_at Selection_add (type_of x) x (selection q))
    as [e|d] eqn:Hadd; [discriminate|].
  intros [= <-]. simpl.
  destruct (selection_add_at_bucket _ _ _ _ Hadd) as [Hown Hothers].
  repeat split; assumption.
Qed.

(** [filter] raises in two cases only: [TypeError] for a selector that is
    neither scalar nor an AND- or OR-clause, and [KeyError] for a selector
    whose category is none of devices, sensors and rules. *)
Theorem filter_raises (x : selector) (q : QueryBuilder) (e : exn) :
  filter' x q = inl e
  <-> (is_ScalarSelector_OrClause_AndClause x = false
       /\ e = TypeError ("Invalid object for filter: " +:+ dquote
                         +:+ selector_str x +:+ dquote))
      \/ (is_ScalarSelector_OrClause_AndClause x = true
          /\ bucket (type_of x) (selection q) = None
          /\ e = KeyError (type_of x)).
Proof.
  unfold filter, selection_add_at, bucket.
  destruct (is_ScalarSelector_OrClause_AndClause x); simpl.
  - destruct (type_of x =? "devices"), (type_of x =? "sensors"),
      (type_of x =? "rules"); simpl; split;
      try discriminate;
      try (intros [[H _] | (_ & H & _)]; discriminate H).
    + intros [= <-]. right. auto.
    + intros [[H _] | (_ & _ & ->)]; [discriminate H | reflexivity].
  - split.
    + intros [= <-]. left. auto.
    + intros [[_ ->] | (H & _)]; [reflexivity | discriminate H].
Qed.

(** Two filters on different categories can be made in either order. *)
Theorem filter_commutes (x y : selector) (q q1 q2 : QueryBuilder) :
  type_of x <> type_of y ->
  filter' x q = inr q1 ->
  filter' y q1 = inr q2 ->
  exists q1', filter' y q = inr q1' /\ filter' x q1' = inr q2.
Proof.
  intros Hne Hx Hy. unfold filter, selection_add_at in *.
  destruct (is_ScalarSelector_OrClause_AndClause x); simpl in *; [|discriminate].
  destruct (is_ScalarSelector_OrClause_AndClause y); simpl in *; [|discriminate].
  destruct (String.eqb_spec (type_of x) "devices") as [Hxd|Hxd];
    destruct (String.eqb_spec (type_of x) "sensors") as [Hxs|Hxs];
    destruct (String.eqb_spec (type_of x) "rules") as [Hxr|Hxr];
    try discriminate; try congruence;
    destruct (String.eqb_spec (type_of y) "devices") as [Hyd|Hyd];
    destruct (String.eqb_spec (type_of y) "sensors") as [Hys|Hys];
    destruct (String.eqb_spec (type_of y) "rules") as [Hyr|Hyr];
    try discriminate; try congruence;
    simplify_eq; simpl in *; simplify_eq;
    eexists; split; reflexivity.
Qed.

End FilterProperties.

Lemma filter_frame_witness :
  exists q',
    filter (fun _ => "devices") (fun _ => "") (fun _ x => {| Selection.selection := Some x |})
      (ScalarSelector "sensors" "key" "s1") rollup_only_query = inr q'
    /\ bucket "sensors" (selection q') = Some sensor_key_s1
    /\ bucket "devices" (selection q') = bucket "devices" (selection rollup_only_query)
    /\ pipeline q' = pipeline rollup_only_query.
Proof.
  eexists. split; [reflexivity|].
  destruct (filter_frame (fun _ => "devices") (fun _ => "")
              (fun _ x => {| Selection.selection := Some x |})
              (ScalarSelector "sensors" "key" "s1") rollup_only_query _ eq_refl)
    as ((s & Hs & Hown) & Hothers & Hpipe & _).
  split; [|split; [|exact Hpipe]].
  - vm_compute in Hown. vm_compute. exact Hown.
  - apply Hothers. discriminate.
Defined.

Lemma filter_commutes_witness :
  exists q1 q2 q1',
    filter (fun _ => "devices") (fun _ => "") (fun _ x => {| Selection.selection := Some x |})
      (ScalarSelector "sensors" "key" "s1") (__init__ "Sensor") = inr q1
    /\ filter (fun _ => "devices") (fun _ => "") (fun _ x => {| Selection.selection := Some x |})
         (ScalarSelector "devices" "key" "d1") q1 = inr q2
    /\ filter (fun _ => "devices") (fun _ => "") (fun _ x => {| Selection.selection := Some x |})
         (ScalarSelector "devices" "key" "d1") (__init__ "Sensor") = inr q1'
    /\ filter (fun _ => "devices") (fun _ => "") (fun _ x => {| Selection.selection := Some x |})
         (ScalarSelector "sensors" "key" "s1") q1' = inr q2
    /\ q2 = one_sensor_query.
Proof.
  destruct (filter_commutes (fun _ => "devices") (fun _ => "")
              (fun _ x => {| Selection.selection := Some x |})
              (ScalarSelector "sensors" "key" "s1")
              (ScalarSelector "devices" "key" "d1")
              (__init__ "Sensor") _ _
              ltac:(discriminate) eq_refl eq_refl)
    as (q1' & Hy & Hx).
  eexists _, _, q1'. split; [reflexivity|]. split; [reflexivity|].
  split; [exact Hy|]. split; [exact Hx | reflexivity].
Defined.
